(** * A password-gated GitHub proxy: [src/server.js]

    The Express application of [src/server.js] guards fifteen routes with the
    [authenticate] middleware and answers each admitted request with at most
    one call to a pre-authenticated Octokit client.  This development embeds

    - the JavaScript values the handlers compute with (truthiness, [||],
      [===], property access, object spread, [parseInt], [Math.min]);
    - the process configuration read from [process.env];
    - the [authenticate] middleware, the two health routes and the fifteen
      guarded handlers, written in a small monad that records the outbound
      calls;
    - the error handler and the CORS allow-list of the same file;
    - the gate and the routes of the older function kept in
      [src/netlify/functions/server.js];

    and proves the properties stated for the access gate and the forwarder.

    What is taken as given: Express has already matched the route (the
    matched route is an input), parsed the query string with [qs], parsed
    the body, and lower-cased the header names; the Octokit client is an
    oracle from outbound calls to settled promises; the clock and the
    [process] readings are inputs.  The helmet, CORS and rate-limit
    middlewares stand in front of every route and are not modelled; the
    documentation route and the 404 fallback answer with fixed text and are
    left out. *)

From stdpp Require Import gmap strings list fin_maps pretty.
From Stdlib Require Import ZArith Ascii.

Set Warnings "-register-all".
Local Open Scope string_scope.
Local Open Scope Z_scope.

(** ** JavaScript values *)

Module JS.

(** Numbers the handlers compute with are the results of [parseInt], array
    lengths and literals: integers or [NaN].  [Int z] stands for the double
    nearest to [z], which is [z] itself up to 2^53. *)
Inductive number :=
  | NaN
  | Int (z : Z).

Inductive value :=
  | VUndefined
  | VNull
  | VBool (b : bool)
  | VNum (n : number)
  | VStr (s : string)
  | VArr (l : list value)
  | VObj (m : gmap string value).

(** [!!n] on a number: [NaN], [0] and [-0] are falsy. *)
Definition num_truthy (n : number) : bool :=
  match n with
  | NaN => false
  | Int z => negb (z =? 0)
  end.

(** ToBoolean. *)
Definition truthy (v : value) : bool :=
  match v with
  | VUndefined | VNull => false
  | VBool b => b
  | VNum n => num_truthy n
  | VStr s => negb (bool_decide (s = ""))
  | VArr _ | VObj _ => true
  end.

(** [a || b] *)
Definition or (a b : value) : value := if truthy a then a else b.

(** [n || d] where both sides are numbers. *)
Definition num_or (n d : number) : number := if num_truthy n then n else d.

(** [a === b].  Arrays and objects compare by identity; the only strict
    comparisons of the program have a configured string on the right, and a
    freshly parsed array or object is never identical to it, so two
    structured values compare unequal. *)
Definition strict_eq (a b : value) : bool :=
  match a, b with
  | VUndefined, VUndefined => true
  | VNull, VNull => true
  | VBool x, VBool y => bool_decide (x = y)
  | VNum (Int x), VNum (Int y) => x =? y
  | VStr x, VStr y => bool_decide (x = y)
  | _, _ => false
  end.

(** [Math.min] on two numbers. *)
Definition Math_min (a b : number) : number :=
  match a, b with
  | Int x, Int y => Int (Z.min x y)
  | _, _ => NaN
  end.

(** *** Strings

    A [string] holds the UTF-8 bytes of a JavaScript string, so that the
    query [per_page=%C2%A05] is the three bytes it decodes from. *)

(** ToString, as [parseInt] applies it to its argument; [None] is the
    TypeError "Cannot convert object to primitive value".  An array is its
    elements joined by commas, with [null] and [undefined] elements printed
    as the empty string.  An object is ["[object Object]"], printed by the
    inherited [toString], unless it has an own [toString] property: the
    values here are data, never functions, so such a property (as the query
    [?per_page[toString]=5] makes) is not callable, the inherited [valueOf]
    returns the object itself, and the conversion throws.  A number prints
    in decimal; no query or path value is a number. *)
Fixpoint ToString (v : value) : option string :=
  match v with
  | VUndefined => Some "undefined"
  | VNull => Some "null"
  | VBool true => Some "true"
  | VBool false => Some "false"
  | VNum NaN => Some "NaN"
  | VNum (Int z) => Some (pretty z)
  | VStr s => Some s
  | VArr l =>
      (fix join (l : list value) : option string :=
         match l with
         | [] => Some ""
         | x :: l' =>
             match match x with
                   | VUndefined | VNull => Some ""
                   | _ => ToString x
                   end with
             | None => None
             | Some sx =>
                 match l' with
                 | [] => Some sx
                 | _ => match join l' with
                        | Some rest => Some (sx +:+ "," +:+ rest)
                        | None => None
                        end
                 end
             end
         end) l
  | VObj m =>
      match m !! "toString" with
      | Some _ => None
      | None => Some "[object Object]"
      end
  end.

(** *** [parseInt] *)

(** The string without its first character when that is a StrWhiteSpaceChar:
    TAB, LF, VT, FF, CR, SP; U+00A0; U+1680; U+2000 to U+200A; U+2028,
    U+2029, U+202F; U+205F; U+3000; U+FEFF. *)
Definition strip_white (s : string) : option string :=
  match s with
  | String a1 s1 =>
      let b1 := N_of_ascii a1 in
      if ((9 <=? b1) && (b1 <=? 13) || (b1 =? 32))%N then Some s1
      else match s1 with
           | String a2 s2 =>
               let b2 := N_of_ascii a2 in
               if ((b1 =? 194) && (b2 =? 160))%N then Some s2
               else match s2 with
                    | String a3 s3 =>
                        let b3 := N_of_ascii a3 in
                        if ((b1 =? 225) && (b2 =? 154) && (b3 =? 128)
                            || (b1 =? 226) && (b2 =? 128) && (128 <=? b3) && (b3 <=? 138)
                            || (b1 =? 226) && (b2 =? 128)
                               && ((b3 =? 168) || (b3 =? 169) || (b3 =? 175))
                            || (b1 =? 226) && (b2 =? 129) && (b3 =? 159)
                            || (b1 =? 227) && (b2 =? 128) && (b3 =? 128)
                            || (b1 =? 239) && (b2 =? 187) && (b3 =? 191))%N
                        then Some s3 else None
                    | EmptyString => None
                    end
           | EmptyString => None
           end
  | EmptyString => None
  end.

(** The string without its leading white space; the fuel is the number of
    bytes, more than the white space can take. *)
Fixpoint trim_start_fuel (fuel : nat) (s : string) : string :=
  match fuel with
  | O => s
  | S fuel' =>
      match strip_white s with
      | Some s' => trim_start_fuel fuel' s'
      | None => s
      end
  end.

Definition trim_start (s : string) : string :=
  trim_start_fuel (String.length s) s.

(** The value of a character as a digit, if it is one below the radix. *)
Definition digit_of (radix : Z) (a : ascii) : option Z :=
  let n := Z.of_N (N_of_ascii a) in
  let d := if (48 <=? n) && (n <=? 57) then Some (n - 48)
           else if (97 <=? n) && (n <=? 122) then Some (n - 87)
           else if (65 <=? n) && (n <=? 90) then Some (n - 55)
           else None in
  match d with
  | Some k => if k <? radix then Some k else None
  | None => None
  end.

(** Reads the longest prefix of digits; [None] when there is no digit. *)
Fixpoint digits (radix : Z) (acc : option Z) (s : string) : option Z :=
  match s with
  | String a s' =>
      match digit_of radix a with
      | Some d => digits radix (Some (radix * default 0 acc + d)) s'
      | None => acc
      end
  | EmptyString => acc
  end.

Definition strip_hex (s : string) : option string :=
  match s with
  | String "0" (String "x" s') | String "0" (String "X" s') => Some s'
  | _ => None
  end.

(** [parseInt(s)] on a string, with no radix argument: leading white space,
    an optional sign, an optional [0x] prefix, then the longest run of
    digits. *)
Definition parseInt_of_string (s : string) : number :=
  let s := trim_start s in
  let '(sign, s) := match s with
                    | String "-" s' => (-1, s')
                    | String "+" s' => (1, s')
                    | _ => (1, s)
                    end in
  let '(radix, s) := match strip_hex s with
                     | Some s' => (16, s')
                     | None => (10, s)
                     end in
  match digits radix None s with
  | Some n => Int (sign * n)
  | None => NaN
  end.

(** [parseInt(v)]: the argument is converted to a string first, and the
    TypeError of that conversion ([None]) is the only way it throws. *)
Definition parseInt (v : value) : option number :=
  parseInt_of_string <$> ToString v.

(** *** Properties and spread *)

(** The index keys of an array: ["0"], ["1"], ... *)
Definition indexed (l : list value) : gmap string value :=
  list_to_map (imap (λ i x, (pretty i, x)) l).

(** The bytes 128 to 191 continue a UTF-8 character. *)
Definition continues (a : ascii) : bool :=
  let n := N_of_ascii a in ((128 <=? n) && (n <=? 191))%N.

(** The UTF-8 characters of a string, each as the string of its bytes. *)
Fixpoint characters (cur : option string) (s : string) : list string :=
  match s with
  | EmptyString => match cur with Some c => [c] | None => [] end
  | String a s' =>
      if continues a then characters (Some (default "" cur +:+ String a EmptyString)) s'
      else match cur with
           | Some c => c :: characters (Some (String a EmptyString)) s'
           | None => characters (Some (String a EmptyString)) s'
           end
  end.

(** A UTF-16 code unit from U+0800 up, written as three bytes. *)
Definition three_bytes (u : N) : string :=
  String (ascii_of_N (224 + u / 4096))
    (String (ascii_of_N (128 + (u / 64) mod 64))
       (String (ascii_of_N (128 + u mod 64)) EmptyString)).

(** The code units of one character: itself, or the two surrogates of a
    character beyond U+FFFF (four bytes). *)
Definition code_units (c : string) : list string :=
  match c with
  | String a1 (String a2 (String a3 (String a4 EmptyString))) =>
      let cp := ((N_of_ascii a1 mod 8) * 262144 + (N_of_ascii a2 mod 64) * 4096
                 + (N_of_ascii a3 mod 64) * 64 + N_of_ascii a4 mod 64)%N in
      [three_bytes (55296 + (cp - 65536) / 1024); three_bytes (56320 + (cp - 65536) mod 1024)]
  | _ => [c]
  end.

(** The indexed elements of a string: its UTF-16 code units. *)
Definition chars (s : string) : list value :=
  VStr <$> (characters None s ≫= code_units).

(** [s.length]: the number of UTF-16 code units. *)
Definition length16 (s : string) : nat := List.length (chars s).

(** The own enumerable properties of a value: what [{...v}] copies.
    Spreading [undefined], [null], a boolean or a number copies nothing. *)
Definition own_props (v : value) : gmap string value :=
  match v with
  | VObj m => m
  | VArr l => indexed l
  | VStr s => indexed (chars s)
  | _ => ∅
  end.

(** [o.k] on a plain object (own properties only: no key the program reads
    is inherited from [Object.prototype]). *)
Definition get (o : gmap string value) (k : string) : value :=
  default VUndefined (o !! k).

(** [v.k] on any value; [None] is the TypeError raised when [v] is
    [undefined] or [null].  Arrays and strings also answer [length]. *)
Definition get_prop (v : value) (k : string) : option value :=
  match v with
  | VUndefined | VNull => None
  | VArr l =>
      Some (if bool_decide (k = "length") then VNum (Int (Z.of_nat (List.length l)))
            else get (indexed l) k)
  | VStr s =>
      Some (if bool_decide (k = "length")
            then VNum (Int (Z.of_nat (length16 s)))
            else get (indexed (chars s)) k)
  | _ => Some (get (own_props v) k)
  end.

(** An object literal [{k1: v1, ..., kn: vn}] with distinct keys. *)
Definition obj (fields : list (string * value)) : gmap string value :=
  list_to_map fields.

(** [{...o, ...src}]: the properties of [src] are written after those of
    [o] and replace them where the keys coincide. *)
Definition spread (o : gmap string value) (src : value) : gmap string value :=
  own_props src ∪ o.

(** [s.toUpperCase()] on ASCII letters; the program upper-cases only
    [req.method], an HTTP method token, which is ASCII. *)
Definition upper (a : ascii) : ascii :=
  let n := N_of_ascii a in
  if ((97 <=? n) && (n <=? 122))%N then ascii_of_N (n - 32) else a.

Fixpoint toUpperCase (s : string) : string :=
  match s with
  | String a s' => String (upper a) (toUpperCase s')
  | EmptyString => EmptyString
  end.

(** [s.toLowerCase()] on ASCII letters. *)
Definition lower (a : ascii) : ascii :=
  let n := N_of_ascii a in
  if ((65 <=? n) && (n <=? 90))%N then ascii_of_N (n + 32) else a.

Fixpoint toLowerCase (s : string) : string :=
  match s with
  | String a s' => String (lower a) (toLowerCase s')
  | EmptyString => EmptyString
  end.

End JS.
Import JS.

(** ** Requests, responses and the process *)

(** What Express hands to a middleware: [req.method], [req.headers] (names
    in lower case), [req.query], [req.params] (the wildcard of a route is
    parameter ["0"]), [req.body], and the [req.authMethod] tag that
    [authenticate] writes. *)
Record request := Request {
  method : string;
  headers : gmap string string;
  query : gmap string value;
  params : gmap string string;
  body : value;
  authMethod : option string;
}.

(** [res.status(code).json(payload)]; [res.json(payload)] has status 200. *)
Record response := Response {
  status : Z;
  json : value;
}.

(** The variables of [process.env] that the program reads. *)
Record process_env := ProcessEnv {
  env_BACKEND_PASSWORD : option string;
  env_ACESS_TOKEN : option string;
  env_API_KEY : option string;
  env_NODE_ENV : option string;
}.

(** The readings of [process] that the health routes report. *)
Record process_info := ProcessInfo {
  uptime : value;
  memoryUsage : value;
  version : value;
  platform : value;
}.

(** ** The Octokit client *)

(** The methods of the client that the handlers call. *)
Inductive endpoint :=
  | users_getAuthenticated
  | repos_listForAuthenticatedUser
  | orgs_listForAuthenticatedUser
  | repos_get
  | repos_getContent
  | repos_listCommits
  | repos_listBranches
  | issues_listForRepo
  | issues_get
  | issues_create
  | issues_update
  | search_repos
  | rateLimit_get
  | octokit_request.

(** One outbound call: the method and its arguments. *)
Record call := Call {
  target : endpoint;
  args : list value;
}.

(** The value a failed call rejects with, and the value any [throw] inside
    a handler carries: an [Error] with a message and, for a RequestError of
    the client, the upstream status. *)
Record js_error := JsError {
  err_status : option Z;
  err_message : string;
}.

(** The value a successful call resolves to. *)
Record octokit_response := OctokitResponse {
  data : value;
  res_status : Z;
}.

Inductive settled :=
  | Fulfilled (r : octokit_response)
  | Rejected (e : js_error).

(** A configured client answers every call with a settled promise. *)
Definition Octokit : Type := call → settled.

(** ** The body of a [try] block

    A computation inside [try { ... }] either throws or yields a value, and
    leaves the list of outbound calls it awaited. *)
Definition Async (A : Type) : Type := (js_error + A) * list call.

#[global] Instance Async_ret : MRet Async := λ A x, (inr x, []).

#[global] Instance Async_bind : MBind Async := λ A B f m,
  match m.1 with
  | inl e => (inl e, m.2)
  | inr x => let r := f x in (r.1, (m.2 ++ r.2)%list)
  end.

Definition throw {A : Type} (e : js_error) : Async A := (inl e, []).

(** [await kit.method(args)] *)
Definition await (kit : Octokit) (c : call) : Async octokit_response :=
  (match kit c with
   | Fulfilled r => inr r
   | Rejected e => inl e
   end, [c]).

(** How an error message names the value that has no properties. *)
Definition nullish_name (v : value) : string :=
  match v with
  | VNull => "null"
  | _ => "undefined"
  end.

(** [v.k] inside a [try] block. *)
Definition prop (v : value) (k : string) : Async value :=
  match get_prop v k with
  | Some x => mret x
  | None =>
      throw (JsError None
        ("Cannot read properties of " +:+ nullish_name v +:+ " (reading '" +:+ k +:+ "')"))
  end.

(** The TypeError of a failed conversion to a string. *)
Definition cannot_convert : js_error :=
  JsError None "Cannot convert object to primitive value".

(** A built-in that may throw that TypeError, inside a [try] block. *)
Definition attempt {A : Type} (result : option A) : Async A :=
  match result with
  | Some x => mret x
  | None => throw cannot_convert
  end.

(** [try { m } catch (error) { h error }], where both branches end by
    sending a response. *)
Definition try_catch (m : Async response) (h : js_error → response)
  : response * list call :=
  match m.1 with
  | inl e => (h e, m.2)
  | inr r => (r, m.2)
  end.

(** [error.status || d] *)
Definition status_or (e : js_error) (d : Z) : Z :=
  match err_status e with
  | Some s => if s =? 0 then d else s
  | None => d
  end.

(** [status: error.status] in an object literal. *)
Definition status_field (e : js_error) : value :=
  from_option (λ s, VNum (Int s)) VUndefined (err_status e).

Inductive middleware_result :=
  | Next (req : request)
  | Respond (res : response).

Definition handler : Type := request → response * list call.

(** ** The application of [src/server.js] *)

Section Server.

(** The environment the process started in, the reading of the clock when a
    response is built ([new Date().toISOString()]), the readings of
    [process], and the behaviour of the remote API as seen through a
    configured client. *)
Context (env : process_env) (now : string) (proc : process_info) (client : Octokit).

(** [process.env.NAME]: a string, or [undefined] when the variable is unset. *)
Definition env_value (o : option string) : value := from_option VStr VUndefined o.

Definition BACKEND_PASSWORD : value :=
  or (env_value (env_BACKEND_PASSWORD env)) (VStr "change-this-secure-password").
Definition GITHUB_TOKEN : value := env_value (env_ACESS_TOKEN env).
Definition API_KEY : value := env_value (env_API_KEY env).

(** [let octokit; if (GITHUB_TOKEN) { octokit = new Octokit(...) }] *)
Definition octokit : option Octokit :=
  if truthy GITHUB_TOKEN then Some client else None.

Definition timestamp : value := VStr now.

(** [req.headers[k]], [req.query.k] and [req.params.k] *)
Definition header (req : request) (k : string) : value :=
  from_option VStr VUndefined (headers req !! k).
Definition q (req : request) (k : string) : value := get (query req) k.
Definition param (req : request) (k : string) : value :=
  from_option VStr VUndefined (params req !! k).

(** [`${v}`] for a path parameter [v]: the string itself, or ["undefined"]
    when the route has no such parameter. *)
Definition template (v : value) : string :=
  match v with
  | VStr s => s
  | _ => "undefined"
  end.

(** [req.authMethod = kind] *)
Definition tag (kind : string) (req : request) : request :=
  Request (method req) (headers req) (query req) (params req) (body req) (Some kind).

(** *** The access gate *)

Definition authenticate (req : request) : middleware_result :=
  let password := or (header req "x-password") (q req "password") in
  let apiKey := or (header req "x-api-key") (q req "api_key") in
  if truthy password && strict_eq password BACKEND_PASSWORD then
    Next (tag "password" req)
  else if truthy API_KEY && truthy apiKey && strict_eq apiKey API_KEY then
    Next (tag "api_key" req)
  else
    Respond (Response 401 (VObj (obj [
      ("error", VStr "Unauthorized: Invalid credentials");
      ("message", VStr "Provide password via x-password header/query or API key via x-api-key header/query");
      ("timestamp", timestamp)]))).

(** [app.METHOD(path, authenticate, h)]: [h] runs on the request that
    [authenticate] passed on. *)
Definition guarded (h : handler) : handler := λ req,
  match authenticate req with
  | Next req' => h req'
  | Respond res => (res, [])
  end.

(** *** The public routes *)

Definition get_status : handler := λ req,
  (Response 200 (VObj (obj [
     ("status", VStr "healthy");
     ("timestamp", timestamp);
     ("uptime", uptime proc);
     ("memory_usage", memoryUsage proc);
     ("environment", or (env_value (env_NODE_ENV env)) (VStr "development"));
     ("github_token_configured", VBool (truthy GITHUB_TOKEN));
     ("api_key_configured", VBool (truthy API_KEY))])), []).

Definition health_checks : gmap string value :=
  obj [
    ("server", VStr "ok");
    ("github_api", if truthy GITHUB_TOKEN then VStr "configured" else VStr "not_configured");
    ("authentication",
       if negb (strict_eq BACKEND_PASSWORD (VStr "change-this-secure-password"))
       then VStr "secure" else VStr "default_password")].

Definition get_health : handler := λ req,
  let health := obj [
    ("status", VStr "healthy");
    ("timestamp", timestamp);
    ("checks", VObj health_checks);
    ("system", VObj (obj [
       ("uptime", uptime proc);
       ("memory", memoryUsage proc);
       ("node_version", version proc);
       ("platform", platform proc)]))] in
  let overallHealthy :=
    forallb (λ check, strict_eq check (VStr "ok") || strict_eq check (VStr "configured")
                      || strict_eq check (VStr "secure"))
            (snd <$> map_to_list health_checks) in
  (Response (if overallHealthy then 200 else 503) (VObj health), []).

(** *** Pieces every guarded handler repeats *)

(** [return res.status(500).json({ error: 'GitHub token not configured' })] *)
Definition token_not_configured : response * list call :=
  (Response 500 (VObj (obj [("error", VStr "GitHub token not configured")])), []).

(** The [catch] block of most handlers. *)
Definition api_error (error : js_error) : response :=
  Response (status_or error 500) (VObj (obj [
    ("error", VStr "GitHub API Error");
    ("message", VStr (err_message error));
    ("timestamp", timestamp)])).

(** The [catch] block of [/github/user] and of the proxy, which also
    reports [status: error.status]. *)
Definition api_error_with_status (error : js_error) : response :=
  Response (status_or error 500) (VObj (obj [
    ("error", VStr "GitHub API Error");
    ("message", VStr (err_message error));
    ("status", status_field error);
    ("timestamp", timestamp)])).

(** [const { k, ... } = src]: a TypeError when [src] is [undefined] or [null]. *)
Definition destructure (name : string) (src : value) (k : string) : Async value :=
  match get_prop src k with
  | Some x => mret x
  | None =>
      throw (JsError None
        ("Cannot destructure property '" +:+ k +:+ "' of '" +:+ name +:+ "' as it is "
         +:+ nullish_name src +:+ "."))
  end.

(** In the handlers below the [parseInt] calls of an argument object are
    written before the object: the other fields of the object cannot throw
    and have no effect, so the order among them does not show. *)

(** *** GitHub user routes *)

Definition get_github_user : handler := λ req,
  match octokit with
  | None => token_not_configured
  | Some kit =>
      try_catch
        (r ← await kit (Call users_getAuthenticated []);
         mret (Response 200 (VObj (obj [
           ("success", VBool true);
           ("data", data r);
           ("timestamp", timestamp)]))))
        api_error_with_status
  end.

Definition get_github_user_repos : handler := λ req,
  match octokit with
  | None => token_not_configured
  | Some kit =>
      try_catch
        (per_page ← attempt (parseInt (q req "per_page"));
         page ← attempt (parseInt (q req "page"));
         r ← await kit (Call repos_listForAuthenticatedUser [VObj (obj [
           ("sort", or (q req "sort") (VStr "updated"));
           ("direction", or (q req "direction") (VStr "desc"));
           ("per_page", VNum (Math_min (num_or per_page (Int 30)) (Int 100)));
           ("page", VNum (num_or page (Int 1)));
           ("visibility", or (q req "visibility") (VStr "all"));
           ("type", or (q req "type") (VStr "all"))])]);
         count ← prop (data r) "length";
         mret (Response 200 (VObj (obj [
           ("success", VBool true);
           ("data", data r);
           ("count", count);
           ("timestamp", timestamp)]))))
        api_error
  end.

Definition get_github_user_orgs : handler := λ req,
  match octokit with
  | None => token_not_configured
  | Some kit =>
      try_catch
        (per_page ← attempt (parseInt (q req "per_page"));
         page ← attempt (parseInt (q req "page"));
         r ← await kit (Call orgs_listForAuthenticatedUser [VObj (obj [
           ("per_page", VNum (Math_min (num_or per_page (Int 30)) (Int 100)));
           ("page", VNum (num_or page (Int 1)))])]);
         count ← prop (data r) "length";
         mret (Response 200 (VObj (obj [
           ("success", VBool true);
           ("data", data r);
           ("count", count);
           ("timestamp", timestamp)]))))
        api_error
  end.

(** *** Repository routes *)

Definition get_github_repos : handler := λ req,
  match octokit with
  | None => token_not_configured
  | Some kit =>
      try_catch
        (per_page ← attempt (parseInt (q req "per_page"));
         page ← attempt (parseInt (q req "page"));
         r ← await kit (Call repos_listForAuthenticatedUser [VObj (obj [
           ("sort", or (q req "sort") (VStr "updated"));
           ("direction", or (q req "direction") (VStr "desc"));
           ("per_page", VNum (Math_min (num_or per_page (Int 30)) (Int 100)));
           ("page", VNum (num_or page (Int 1)));
           ("visibility", or (q req "visibility") (VStr "all"))])]);
         count ← prop (data r) "length";
         page' ← attempt (parseInt (q req "page"));
         per_page' ← attempt (parseInt (q req "per_page"));
         mret (Response 200 (VObj (obj [
           ("success", VBool true);
           ("data", data r);
           ("count", count);
           ("pagination", VObj (obj [
              ("page", VNum (num_or page' (Int 1)));
              ("per_page", VNum (Math_min (num_or per_page' (Int 30)) (Int 100)))]));
           ("timestamp", timestamp)]))))
        api_error
  end.

Definition get_github_repo : handler := λ req,
  match octokit with
  | None => token_not_configured
  | Some kit =>
      try_catch
        (r ← await kit (Call repos_get [VObj (obj [
           ("owner", param req "owner");
           ("repo", param req "repo")])]);
         mret (Response 200 (VObj (obj [
           ("success", VBool true);
           ("data", data r);
           ("timestamp", timestamp)]))))
        api_error
  end.

Definition get_github_repo_contents : handler := λ req,
  match octokit with
  | None => token_not_configured
  | Some kit =>
      try_catch
        (r ← await kit (Call repos_getContent [VObj (obj [
           ("owner", param req "owner");
           ("repo", param req "repo");
           ("path", or (param req "path") (VStr ""));
           ("ref", q req "ref")])]);
         mret (Response 200 (VObj (obj [
           ("success", VBool true);
           ("data", data r);
           ("timestamp", timestamp)]))))
        api_error
  end.

Definition get_github_repo_commits : handler := λ req,
  match octokit with
  | None => token_not_configured
  | Some kit =>
      try_catch
        (per_page ← attempt (parseInt (q req "per_page"));
         page ← attempt (parseInt (q req "page"));
         r ← await kit (Call repos_listCommits [VObj (obj [
           ("owner", param req "owner");
           ("repo", param req "repo");
           ("sha", q req "sha");
           ("path", q req "path");
           ("author", q req "author");
           ("since", q req "since");
           ("until", q req "until");
           ("per_page", VNum (Math_min (num_or per_page (Int 30)) (Int 100)));
           ("page", VNum (num_or page (Int 1)))])]);
         count ← prop (data r) "length";
         mret (Response 200 (VObj (obj [
           ("success", VBool true);
           ("data", data r);
           ("count", count);
           ("timestamp", timestamp)]))))
        api_error
  end.

Definition get_github_repo_branches : handler := λ req,
  match octokit with
  | None => token_not_configured
  | Some kit =>
      try_catch
        (per_page ← attempt (parseInt (q req "per_page"));
         page ← attempt (parseInt (q req "page"));
         r ← await kit (Call repos_listBranches [VObj (obj [
           ("owner", param req "owner");
           ("repo", param req "repo");
           ("protected", q req "protected");
           ("per_page", VNum (Math_min (num_or per_page (Int 30)) (Int 100)));
           ("page", VNum (num_or page (Int 1)))])]);
         count ← prop (data r) "length";
         mret (Response 200 (VObj (obj [
           ("success", VBool true);
           ("data", data r);
           ("count", count);
           ("timestamp", timestamp)]))))
        api_error
  end.

(** *** Issue routes *)

Definition get_github_repo_issues : handler := λ req,
  match octokit with
  | None => token_not_configured
  | Some kit =>
      try_catch
        (per_page ← attempt (parseInt (q req "per_page"));
         page ← attempt (parseInt (q req "page"));
         r ← await kit (Call issues_listForRepo [VObj (obj [
           ("owner", param req "owner");
           ("repo", param req "repo");
           ("state", or (q req "state") (VStr "open"));
           ("labels", q req "labels");
           ("sort", or (q req "sort") (VStr "created"));
           ("direction", or (q req "direction") (VStr "desc"));
           ("since", q req "since");
           ("per_page", VNum (Math_min (num_or per_page (Int 30)) (Int 100)));
           ("page", VNum (num_or page (Int 1)))])]);
         count ← prop (data r) "length";
         mret (Response 200 (VObj (obj [
           ("success", VBool true);
           ("data", data r);
           ("count", count);
           ("timestamp", timestamp)]))))
        api_error
  end.

Definition get_github_repo_issue : handler := λ req,
  match octokit with
  | None => token_not_configured
  | Some kit =>
      try_catch
        (issue_number ← attempt (parseInt (param req "issue_number"));
         r ← await kit (Call issues_get [VObj (obj [
           ("owner", param req "owner");
           ("repo", param req "repo");
           ("issue_number", VNum issue_number)])]);
         mret (Response 200 (VObj (obj [
           ("success", VBool true);
           ("data", data r);
           ("timestamp", timestamp)]))))
        api_error
  end.

Definition post_github_repo_issues : handler := λ req,
  match octokit with
  | None => token_not_configured
  | Some kit =>
      try_catch
        (title ← destructure "req.body" (body req) "title";
         body' ← destructure "req.body" (body req) "body";
         labels ← destructure "req.body" (body req) "labels";
         assignees ← destructure "req.body" (body req) "assignees";
         milestone ← destructure "req.body" (body req) "milestone";
         if negb (truthy title) then
           mret (Response 400 (VObj (obj [
             ("error", VStr "Validation Error");
             ("message", VStr "Title is required");
             ("timestamp", timestamp)])))
         else
           r ← await kit (Call issues_create [VObj (obj [
             ("owner", param req "owner");
             ("repo", param req "repo");
             ("title", title);
             ("body", body');
             ("labels", labels);
             ("assignees", assignees);
             ("milestone", milestone)])]);
           mret (Response 201 (VObj (obj [
             ("success", VBool true);
             ("data", data r);
             ("message", VStr "Issue created successfully");
             ("timestamp", timestamp)]))))
        api_error
  end.

Definition patch_github_repo_issue : handler := λ req,
  match octokit with
  | None => token_not_configured
  | Some kit =>
      try_catch
        (let updateData := body req in
         issue_number ← attempt (parseInt (param req "issue_number"));
         r ← await kit (Call issues_update [VObj (spread (obj [
           ("owner", param req "owner");
           ("repo", param req "repo");
           ("issue_number", VNum issue_number)]) updateData)]);
         mret (Response 200 (VObj (obj [
           ("success", VBool true);
           ("data", data r);
           ("message", VStr "Issue updated successfully");
           ("timestamp", timestamp)]))))
        api_error
  end.

(** *** Search and rate limit *)

Definition get_github_search_repos : handler := λ req,
  match octokit with
  | None => token_not_configured
  | Some kit =>
      try_catch
        (if negb (truthy (q req "q")) then
           mret (Response 400 (VObj (obj [
             ("error", VStr "Validation Error");
             ("message", VStr "Search query (q) parameter is required");
             ("timestamp", timestamp)])))
         else
           per_page ← attempt (parseInt (q req "per_page"));
           page ← attempt (parseInt (q req "page"));
           r ← await kit (Call search_repos [VObj (obj [
             ("q", q req "q");
             ("sort", q req "sort");
             ("order", q req "order");
             ("per_page", VNum (Math_min (num_or per_page (Int 30)) (Int 100)));
             ("page", VNum (num_or page (Int 1)))])]);
           mret (Response 200 (VObj (obj [
             ("success", VBool true);
             ("data", data r);
             ("timestamp", timestamp)]))))
        api_error
  end.

Definition get_github_rate_limit : handler := λ req,
  match octokit with
  | None => token_not_configured
  | Some kit =>
      try_catch
        (r ← await kit (Call rateLimit_get []);
         mret (Response 200 (VObj (obj [
           ("success", VBool true);
           ("data", data r);
           ("timestamp", timestamp)]))))
        api_error
  end.

(** *** The generic proxy, [app.all('/github/api/*')] *)

(** [const requestConfig = { method, url: `/${path}`, ...req.query };
     if (['POST', 'PUT', 'PATCH'].includes(method) && req.body)
       requestConfig.data = req.body;] *)
Definition requestConfig (req : request) : gmap string value :=
  let path := param req "0" in
  let method := toUpperCase (method req) in
  let config := spread (obj [
    ("method", VStr method);
    ("url", VStr ("/" +:+ template path))]) (VObj (query req)) in
  if bool_decide (method ∈ ["POST"; "PUT"; "PATCH"]) && truthy (body req)
  then <["data" := body req]> config
  else config.

Definition all_github_api : handler := λ req,
  match octokit with
  | None => token_not_configured
  | Some kit =>
      try_catch
        (r ← await kit (Call octokit_request [VObj (requestConfig req)]);
         mret (Response 200 (VObj (obj [
           ("success", VBool true);
           ("data", data r);
           ("status", VNum (Int (res_status r)));
           ("timestamp", timestamp)]))))
        api_error_with_status
  end.

(** *** Routing *)

(** The routes the file registers, named by method and path. *)
Inductive route :=
  | GET_status
  | GET_health
  | GET_github_user
  | GET_github_user_repos
  | GET_github_user_orgs
  | GET_github_repos
  | GET_github_repo
  | GET_github_repo_contents
  | GET_github_repo_commits
  | GET_github_repo_branches
  | GET_github_repo_issues
  | GET_github_repo_issue
  | POST_github_repo_issues
  | PATCH_github_repo_issue
  | GET_github_search_repos
  | GET_github_rate_limit
  | ALL_github_api.

(** The handler Express runs for a matched route. *)
Definition app (rt : route) : handler :=
  match rt with
  | GET_status => get_status
  | GET_health => get_health
  | GET_github_user => guarded get_github_user
  | GET_github_user_repos => guarded get_github_user_repos
  | GET_github_user_orgs => guarded get_github_user_orgs
  | GET_github_repos => guarded get_github_repos
  | GET_github_repo => guarded get_github_repo
  | GET_github_repo_contents => guarded get_github_repo_contents
  | GET_github_repo_commits => guarded get_github_repo_commits
  | GET_github_repo_branches => guarded get_github_repo_branches
  | GET_github_repo_issues => guarded get_github_repo_issues
  | GET_github_repo_issue => guarded get_github_repo_issue
  | POST_github_repo_issues => guarded post_github_repo_issues
  | PATCH_github_repo_issue => guarded patch_github_repo_issue
  | GET_github_search_repos => guarded get_github_search_repos
  | GET_github_rate_limit => guarded get_github_rate_limit
  | ALL_github_api => guarded all_github_api
  end.

(** The routes registered with [authenticate]. *)
Definition protected (rt : route) : bool :=
  match rt with
  | GET_status | GET_health => false
  | _ => true
  end.

(** The routes whose success envelope carries [count: data.length]. *)
Definition lists (rt : route) : bool :=
  match rt with
  | GET_github_user_repos | GET_github_user_orgs | GET_github_repos
  | GET_github_repo_commits | GET_github_repo_branches | GET_github_repo_issues => true
  | _ => false
  end.

End Server.


(** ** The older function of [src/netlify/functions/server.js]

    The second program kept in that file is an earlier version of the
    application: a password-only gate and a proxy that merges query and body
    into the parameters of the call. *)

Module Netlify.
Section Server.

Context (env : process_env) (client : Octokit).

Definition BACKEND_PASSWORD : value :=
  or (env_value (env_BACKEND_PASSWORD env)) (VStr "your-secure-password").
Definition GITHUB_TOKEN : value := env_value (env_ACESS_TOKEN env).

Definition octokit : option Octokit :=
  if truthy GITHUB_TOKEN then Some client else None.

Definition authenticate (req : request) : middleware_result :=
  let password := or (header req "x-password") (q req "password") in
  if negb (truthy password) || negb (strict_eq password BACKEND_PASSWORD) then
    Respond (Response 401 (VObj (obj [("error", VStr "Unauthorized: Invalid password")])))
  else
    Next req.

Definition guarded (h : handler) : handler := λ req,
  match authenticate req with
  | Next req' => h req'
  | Respond res => (res, [])
  end.

(** [octokit.request(`${method.toUpperCase()} /${path}`,
                     { ...req.query, ...req.body })] *)
Definition all_github_api : handler := λ req,
  match octokit with
  | None => (Response 500 (VObj (obj [("error", VStr "GitHub token not configured")])), [])
  | Some kit =>
      try_catch
        (let path := param req "0" in
         let method := toLowerCase (method req) in
         r ← await kit (Call octokit_request [
           VStr (toUpperCase method +:+ " /" +:+ template path);
           VObj (spread (spread ∅ (VObj (query req))) (body req))]);
         mret (Response 200 (data r)))
        (λ error, Response 500 (VObj (obj [("error", VStr (err_message error))])))
  end.

(** *** The other routes of the older function *)

Definition get_status (now : string) : handler := λ req,
  (Response 200 (VObj (obj [
     ("status", VStr "healthy");
     ("timestamp", VStr now);
     ("github_token_configured", VBool (truthy GITHUB_TOKEN))])), []).

(** [return res.status(500).json({ error: 'GitHub token not configured' })] *)
Definition token_not_configured : response * list call :=
  (Response 500 (VObj (obj [("error", VStr "GitHub token not configured")])), []).

(** [catch (error) { res.status(500).json({ error: error.message }) }] *)
Definition failed (error : js_error) : response :=
  Response 500 (VObj (obj [("error", VStr (err_message error))])).

Definition get_github_user : handler := λ req,
  match octokit with
  | None => token_not_configured
  | Some kit =>
      try_catch
        (r ← await kit (Call users_getAuthenticated []);
         mret (Response 200 (data r)))
        failed
  end.

Definition get_github_repos : handler := λ req,
  match octokit with
  | None => token_not_configured
  | Some kit =>
      try_catch
        (r ← await kit (Call repos_listForAuthenticatedUser [VObj (obj [
           ("sort", VStr "updated");
           ("per_page", or (q req "per_page") (VNum (Int 30)))])]);
         mret (Response 200 (data r)))
        failed
  end.

Definition get_github_repo : handler := λ req,
  match octokit with
  | None => token_not_configured
  | Some kit =>
      try_catch
        (r ← await kit (Call repos_get [VObj (obj [
           ("owner", param req "owner");
           ("repo", param req "repo")])]);
         mret (Response 200 (data r)))
        failed
  end.

Definition get_github_repo_issues : handler := λ req,
  match octokit with
  | None => token_not_configured
  | Some kit =>
      try_catch
        (r ← await kit (Call issues_listForRepo [VObj (obj [
           ("owner", param req "owner");
           ("repo", param req "repo");
           ("state", or (q req "state") (VStr "open"));
           ("per_page", or (q req "per_page") (VNum (Int 30)))])]);
         mret (Response 200 (data r)))
        failed
  end.

Definition post_github_repo_issues : handler := λ req,
  match octokit with
  | None => token_not_configured
  | Some kit =>
      try_catch
        (title ← destructure "req.body" (body req) "title";
         body' ← destructure "req.body" (body req) "body";
         labels ← destructure "req.body" (body req) "labels";
         if negb (truthy title) then
           mret (Response 400 (VObj (obj [("error", VStr "Title is required")])))
         else
           r ← await kit (Call issues_create [VObj (obj [
             ("owner", param req "owner");
             ("repo", param req "repo");
             ("title", title);
             ("body", body');
             ("labels", labels)])]);
           mret (Response 200 (data r)))
        failed
  end.

(** The routes the older function registers. *)
Inductive route :=
  | GET_status
  | GET_github_user
  | GET_github_repos
  | GET_github_repo
  | GET_github_repo_issues
  | POST_github_repo_issues
  | ALL_github_api.

Definition app (now : string) (rt : route) : handler :=
  match rt with
  | GET_status => get_status now
  | GET_github_user => guarded get_github_user
  | GET_github_repos => guarded get_github_repos
  | GET_github_repo => guarded get_github_repo
  | GET_github_repo_issues => guarded get_github_repo_issues
  | POST_github_repo_issues => guarded post_github_repo_issues
  | ALL_github_api => guarded all_github_api
  end.

(** The routes registered with [authenticate]. *)
Definition protected (rt : route) : bool :=
  match rt with
  | GET_status => false
  | _ => true
  end.

(** The two routes that read [req.query.per_page]. *)
Definition paginated (rt : route) : bool :=
  match rt with
  | GET_github_repos | GET_github_repo_issues => true
  | _ => false
  end.

End Server.
End Netlify.

(** ** The rest of [src/server.js] *)

(** The error object Express hands to the error-handling middleware: its
    [name], its [status] when it has one, and its [message]. *)
Record express_error := ExpressError {
  error_name : string;
  error_status : option Z;
  error_message : string;
}.

(** [errorHandler(error, req, res, next)] *)
Definition errorHandler (now : string) (error : express_error) : response :=
  if bool_decide (error_name error = "ValidationError") then
    Response 400 (VObj (obj [
      ("error", VStr "Validation Error");
      ("message", VStr (error_message error));
      ("timestamp", VStr now)]))
  else
    match error_status error with
    | Some s =>
        if negb (s =? 0) then
          Response s (VObj (obj [
            ("error", or (VStr (error_message error)) (VStr "An error occurred"));
            ("timestamp", VStr now)]))
        else
          Response 500 (VObj (obj [
            ("error", VStr "Internal Server Error");
            ("message", VStr "Something went wrong on our end");
            ("timestamp", VStr now)]))
    | None =>
        Response 500 (VObj (obj [
          ("error", VStr "Internal Server Error");
          ("message", VStr "Something went wrong on our end");
          ("timestamp", VStr now)]))
    end.

(** [s.split(c)] for a one-character separator: the pieces between the
    separators, at least one piece. *)
Fixpoint split (c : ascii) (s : string) : list string :=
  match s with
  | EmptyString => [EmptyString]
  | String a s' =>
      if bool_decide (a = c) then EmptyString :: split c s'
      else match split c s' with
           | piece :: rest => String a piece :: rest
           | [] => [String a EmptyString]
           end
  end.

(** The [origin] option handed to [cors]:
    [process.env.ALLOWED_ORIGINS ? process.env.ALLOWED_ORIGINS.split(',') : '*'],
    as a function of the variable. *)
Definition cors_origin (ALLOWED_ORIGINS : option string) : value :=
  if truthy (env_value ALLOWED_ORIGINS)
  then VArr (VStr <$> split "," (default "" ALLOWED_ORIGINS))
  else VStr "*".

(** The character occurs in the string. *)
Fixpoint has_char (c : ascii) (s : string) : bool :=
  match s with
  | EmptyString => false
  | String a s' => bool_decide (a = c) || has_char c s'
  end.

(** The routes of [src/server.js] that send [per_page] and [page]. *)
Definition paginated (rt : route) : bool :=
  match rt with
  | GET_github_user_repos | GET_github_user_orgs | GET_github_repos
  | GET_github_repo_commits | GET_github_repo_branches | GET_github_repo_issues
  | GET_github_search_repos => true
  | _ => false
  end.

(** The status of a success response: 201 for issue creation, else 200. *)
Definition success_status (rt : route) : Z :=
  match rt with
  | POST_github_repo_issues => 201
  | _ => 200
  end.

(** * Specification vocabulary *)

(** The response every rejected request receives, at clock reading [now]. *)
Definition unauthorized (now : string) : response :=
  Response 401 (VObj (obj [
    ("error", VStr "Unauthorized: Invalid credentials");
    ("message", VStr "Provide password via x-password header/query or API key via x-api-key header/query");
    ("timestamp", VStr now)])).

(** The request shows the configured password in the [x-password] header or
    in the [password] query parameter. *)
Definition presents_password (env : process_env) (req : request) : Prop :=
  header req "x-password" = BACKEND_PASSWORD env ∨ q req "password" = BACKEND_PASSWORD env.

(** An API key is configured and the request shows it in the [x-api-key]
    header or in the [api_key] query parameter. *)
Definition presents_api_key (env : process_env) (req : request) : Prop :=
  truthy (API_KEY env) = true ∧
  (header req "x-api-key" = API_KEY env ∨ q req "api_key" = API_KEY env).

(** The Configuration error. *)
Definition configuration_error : response :=
  Response 500 (VObj (obj [("error", VStr "GitHub token not configured")])).

(** The Validation error with the given message. *)
Definition validation_error (now message : string) : response :=
  Response 400 (VObj (obj [
    ("error", VStr "Validation Error");
    ("message", VStr message);
    ("timestamp", VStr now)])).

(** An upstream credential is set: [ACESS_TOKEN] is a non-empty string. *)
Definition token_set (env : process_env) : bool :=
  match env_ACESS_TOKEN env with
  | Some s => negb (bool_decide (s = ""))
  | None => false
  end.

(** The configured password differs from the insecure default. *)
Definition password_changed (env : process_env) : bool :=
  match env_BACKEND_PASSWORD env with
  | Some s => negb (bool_decide (s = "")) && negb (bool_decide (s = "change-this-secure-password"))
  | None => false
  end.

(** A string that is a decimal integer throughout: an optional sign and
    one or more digits. *)
Definition decimal (s : string) : option Z :=
  let '(sign, t) := match s with
                    | String "-" t => (-1, t)
                    | _ => (1, s)
                    end in
  if forallb (λ a, bool_decide (is_Some (digit_of 10 a))) (String.list_ascii_of_string t)
  then (λ n, sign * n) <$> digits 10 None t
  else None.

(** The page size in the words of the specification: the minimum of the
    caller-supplied value and 100, with 30 when the value is absent or not
    numeric. *)
Definition claimed_per_page (supplied : value) : number :=
  match supplied with
  | VStr s =>
      match decimal s with
      | Some n => Int (Z.min n 100)
      | None => Int 30
      end
  | _ => Int 30
  end.

(** The page size the handlers send when [parseInt] reads [read] from the
    supplied value: the integer read, or 30 when it reads none or reads
    zero, capped at 100. *)
Definition sent_per_page (read : number) : Z :=
  match read with
  | Int n => if n =? 0 then 30 else Z.min n 100
  | NaN => 30
  end.

(** The proxy attaches the body as [data]: the method is POST, PUT or PATCH
    and the body is truthy. *)
Definition attaches_body (req : request) : bool :=
  bool_decide (toUpperCase (method req) ∈ ["POST"; "PUT"; "PATCH"]) && truthy (body req).

(** ** Sample inputs *)

Module Sample.

Definition t0 : string := "2024-05-01T12:00:00.000Z".

Definition proc0 : process_info :=
  ProcessInfo (VNum (Int 42)) (VObj ∅) (VStr "v18.20.0") (VStr "linux").

(** Password, token and API key all configured. *)
Definition env_full : process_env :=
  ProcessEnv (Some "s3cret") (Some "ghp_token") (Some "key-1") None.

(** Nothing configured: default password, no client, no API key. *)
Definition env_bare : process_env := ProcessEnv None None None None.

(** An upstream that answers every call with two items. *)
Definition two_items : list value := [VStr "a"; VStr "b"].
Definition client_ok : Octokit := λ _, Fulfilled (OctokitResponse (VArr two_items) 200).

(** An upstream that fails every call with 404. *)
Definition not_found : js_error := JsError (Some 404) "Not Found".
Definition client_404 : Octokit := λ _, Rejected not_found.

Definition GET (hs : list (string * string)) (qs : list (string * value))
    (ps : list (string * string)) : request :=
  Request "GET" (list_to_map hs) (list_to_map qs) (list_to_map ps) (VObj ∅) None.

Definition anonymous : request := GET [] [] [].
Definition wrong_password : request := GET [("x-password", "guess")] [] [].
Definition empty_password : request := GET [] [("password", VStr "")] [].
Definition good_password_bad_key : request :=
  GET [("x-password", "s3cret"); ("x-api-key", "nope")] [] [].
Definition both_valid : request :=
  GET [("x-password", "s3cret"); ("x-api-key", "key-1")] [] [].
Definition key_in_query : request :=
  GET [("x-password", "guess")] [("api_key", VStr "key-1")] [].
Definition admitted (qs : list (string * value)) (ps : list (string * string)) : request :=
  GET [("x-password", "s3cret")] qs ps.

Definition POST (hs : list (string * string)) (ps : list (string * string)) (b : value)
  : request :=
  Request "POST" (list_to_map hs) ∅ (list_to_map ps) b None.

Definition repo_params : list (string * string) := [("owner", "octo"); ("repo", "hello")].

Definition issue_params : list (string * string) :=
  [("owner", "octo"); ("repo", "hello"); ("issue_number", "7")].

Definition new_issue_fields : gmap string value :=
  obj [("title", VStr "Bug"); ("body", VStr "It broke"); ("labels", VArr [VStr "bug"])].
Definition new_issue : request :=
  POST [("x-password", "s3cret")] repo_params (VObj new_issue_fields).
(** The same request under the default password. *)
Definition default_new_issue : request :=
  POST [("x-password", "change-this-secure-password")] repo_params (VObj new_issue_fields).
Definition untitled_issue : request :=
  POST [("x-password", "s3cret")] repo_params (VObj (obj [("body", VStr "It broke")])).

Definition list_issues : request := admitted [("state", VStr "all")] repo_params.
Definition list_issues_call : call :=
  Call issues_listForRepo [VObj (obj [
    ("owner", VStr "octo");
    ("repo", VStr "hello");
    ("state", VStr "all");
    ("labels", VUndefined);
    ("sort", VStr "created");
    ("direction", VStr "desc");
    ("since", VUndefined);
    ("per_page", VNum (Int 30));
    ("page", VNum (Int 1))])].

Definition read_repo : request := admitted [] repo_params.
Definition read_repo_call : call :=
  Call repos_get [VObj (obj [("owner", VStr "octo"); ("repo", VStr "hello")])].

(** [GET /github/api/user?method=DELETE&url=/repos/octo/hello] *)
Definition redirected : request :=
  admitted [("method", VStr "DELETE"); ("url", VStr "/repos/octo/hello")] [("0", "user")].

(** [PATCH /github/repo/octo/hello/issues/7], the body naming another
    repository and issue. *)
Definition retargeted_fields : gmap string value :=
  obj [("repo", VStr "other"); ("issue_number", VNum (Int 99)); ("state", VStr "closed")].
Definition retargeted : request :=
  Request "PATCH" (list_to_map [("x-password", "s3cret")]) ∅ (list_to_map issue_params)
          (VObj retargeted_fields) None.

(** The same route with a body that only closes the issue. *)
Definition close_issue : request :=
  Request "PATCH" (list_to_map [("x-password", "s3cret")]) ∅ (list_to_map issue_params)
          (VObj (obj [("state", VStr "closed")])) None.

(** [POST /github/api/repos/octo/hello/labels?per_page=5] with a JSON body. *)
Definition new_label : value := VObj (obj [("name", VStr "triage")]).
Definition create_label : request :=
  Request "POST" (list_to_map [("x-password", "s3cret")])
          (list_to_map [("per_page", VStr "5")])
          (list_to_map [("0", "repos/octo/hello/labels")]) new_label None.

Definition search (per_page : string) : request :=
  admitted [("q", VStr "rocq"); ("per_page", VStr per_page)] [].

(** A wrong password in the header, the right one in the query string. *)
Definition shadowed_password : request :=
  GET [("x-password", "guess")] [("password", VStr "s3cret")] [].

(** Only the password configured. *)
Definition env_password_only : process_env :=
  ProcessEnv (Some "s3cret") (Some "ghp_token") None None.

Definition default_password_request : request :=
  GET [] [("password", VStr "change-this-secure-password")] [].

(** The call a search with the given page size makes. *)
Definition search_call (per_page : Z) : call :=
  Call search_repos [VObj (obj [
    ("q", VStr "rocq");
    ("sort", VUndefined);
    ("order", VUndefined);
    ("per_page", VNum (Int per_page));
    ("page", VNum (Int 1))])].

(** [GET /github/search/repos?q=rocq&per_page[toString]=5] *)
Definition search_own_toString : request :=
  admitted [("q", VStr "rocq"); ("per_page", VObj (obj [("toString", VStr "5")]))] [].

(** An upstream that answers every call with no content. *)
Definition client_no_content : Octokit := λ _, Fulfilled (OctokitResponse VUndefined 204).

(** The call [create_label] makes. *)
Definition create_label_call : call :=
  Call octokit_request [VObj (obj [
    ("method", VStr "POST");
    ("url", VStr "/repos/octo/hello/labels");
    ("per_page", VStr "5");
    ("data", new_label)])].

(** Errors reaching the error handler: a failure inside a middleware, and
    the body parser's complaint about malformed JSON. *)
Definition crash (message : string) : express_error :=
  ExpressError "TypeError" None message.

(** [GET /github/repos?per_page=500] *)
Definition many_repos : request := admitted [("per_page", VStr "500")] [].
Definition many_repos_call : call :=
  Call repos_listForAuthenticatedUser [VObj (obj [
    ("sort", VStr "updated");
    ("per_page", VStr "500")])].

(** An issue with every field the newer handler forwards. *)
Definition full_issue_fields : gmap string value :=
  obj [("title", VStr "Bug"); ("body", VStr "It broke"); ("labels", VArr [VStr "bug"]);
       ("assignees", VArr [VStr "octocat"]); ("milestone", VNum (Int 3))].
Definition full_issue : request :=
  POST [("x-password", "s3cret")] repo_params (VObj full_issue_fields).

(** A JSON body whose title is [null]. *)
Definition null_title_issue : request :=
  POST [("x-password", "s3cret")] repo_params (VObj (obj [("title", VNull)])).
End Sample.

(** * Properties *)

(** ** Facts about the JavaScript operations *)

Example parseInt_500 : parseInt (VStr "500") = Some (Int 500).
Proof. reflexivity. Qed.
Example parseInt_prefix : parseInt (VStr "  -12abc") = Some (Int (-12)).
Proof. reflexivity. Qed.
Example parseInt_hex : parseInt (VStr "0x1F") = Some (Int 31).
Proof. reflexivity. Qed.
Example parseInt_undefined : parseInt VUndefined = Some NaN.
Proof. reflexivity. Qed.
Example parseInt_array : parseInt (VArr [VStr "5"; VStr "6"]) = Some (Int 5).
Proof. reflexivity. Qed.
(** A no-break space (the bytes C2 A0) before the digits is skipped. *)
Example parseInt_no_break_space :
  parseInt (VStr (String (ascii_of_N 194) (String (ascii_of_N 160) "5"))) = Some (Int 5).
Proof. reflexivity. Qed.
(** An object with its own [toString] property cannot be converted. *)
Example parseInt_own_toString : parseInt (VObj (obj [("toString", VStr "5")])) = None.
Proof. reflexivity. Qed.
Example parseInt_plain_object : parseInt (VObj (obj [("a", VStr "5")])) = Some NaN.
Proof. reflexivity. Qed.
Example spread_replaces_field :
  spread (obj [("a", VNull); ("b", VNull)]) (VObj (obj [("a", VStr "x")])) !! "a"
  = Some (VStr "x").
Proof. reflexivity. Qed.
Example get_prop_length : get_prop (VArr [VNull; VNull]) "length" = Some (VNum (Int 2)).
Proof. reflexivity. Qed.

Lemma strict_eq_true (a b : value) : strict_eq a b = true → a = b.
Proof.
  destruct a as [| |x|[|x]|x|l|m], b as [| |y|[|y]|y|l'|m']; simpl; try discriminate;
    try reflexivity.
  - intros H. apply bool_decide_eq_true in H. by subst.
  - intros H. apply Z.eqb_eq in H. by subst.
  - intros H. apply bool_decide_eq_true in H. by subst.
Qed.

Lemma strict_eq_str (s : string) : strict_eq (VStr s) (VStr s) = true.
Proof. simpl. by apply bool_decide_eq_true. Qed.

Lemma or_cases (a b : value) :
  (truthy a = true ∧ or a b = a) ∨ (truthy a = false ∧ or a b = b).
Proof. unfold or. destruct (truthy a); auto. Qed.

Lemma truthy_str (s : string) : truthy (VStr s) = true ↔ s ≠ "".
Proof.
  simpl. rewrite negb_true_iff, bool_decide_eq_false. done.
Qed.

Lemma strip_white_shorter s s' :
  strip_white s = Some s' → (String.length s' < String.length s)%nat.
Proof.
  unfold strip_white. destruct s as [|a1 [|a2 [|a3 s3]]]; cbn;
    repeat (case_match; try discriminate); intros [= <-]; cbn; lia.
Qed.

Lemma trim_start_fuel_done fuel s :
  (String.length s ≤ fuel)%nat → strip_white (trim_start_fuel fuel s) = None.
Proof.
  revert s. induction fuel as [|fuel IH]; intros s Hlen.
  - destruct s; [reflexivity|cbn in Hlen; lia].
  - cbn. destruct (strip_white s) as [s'|] eqn:E; [|done].
    apply IH. apply strip_white_shorter in E. lia.
Qed.

(** [trim_start] leaves no white space at the front. *)
Lemma trim_start_done s : strip_white (trim_start s) = None.
Proof. by apply trim_start_fuel_done. Qed.

(** [parseInt] never throws on a string or on [undefined], which is all a
    path parameter can be. *)
Lemma parseInt_param req k : ∃ n, parseInt (param req k) = Some n.
Proof. unfold param. destruct (params req !! k); cbn; eauto. Qed.

(** The configured password is always a non-empty string: an unset or empty
    [BACKEND_PASSWORD] variable falls back to the default. *)
Lemma BACKEND_PASSWORD_string (env : process_env) :
  ∃ s, BACKEND_PASSWORD env = VStr s ∧ s ≠ "".
Proof.
  unfold BACKEND_PASSWORD, env_value.
  destruct (env_BACKEND_PASSWORD env) as [s|]; simpl.
  - destruct (or_cases (VStr s) (VStr "change-this-secure-password")) as [[Ht ->]|[_ ->]].
    + exists s. split; [done|]. by apply truthy_str.
    + eexists. split; [done|]. discriminate.
  - eexists. split; [reflexivity|]. discriminate.
Qed.

(** ** The access gate *)

(** The gate has two outcomes only: it passes the request on, tagged, or it
    answers [unauthorized]. *)
Lemma authenticate_cases env now req :
  (∃ kind, authenticate env now req = Next (tag kind req)) ∨
  authenticate env now req = Respond (unauthorized now).
Proof.
  unfold authenticate.
  destruct (truthy _ && strict_eq _ (BACKEND_PASSWORD env)); [left; eauto|].
  destruct (truthy (API_KEY env) && _ && _); [left; eauto|].
  right. reflexivity.
Qed.

Lemma authenticate_rejects env now req :
  ¬ presents_password env req → ¬ presents_api_key env req →
  authenticate env now req = Respond (unauthorized now).
Proof.
  intros Hpw Hkey. unfold authenticate.
  destruct (truthy _ && strict_eq _ (BACKEND_PASSWORD env)) eqn:E1.
  { exfalso. apply Hpw. apply andb_true_iff in E1 as [_ E1].
    apply strict_eq_true in E1. unfold presents_password.
    destruct (or_cases (header req "x-password") (q req "password")) as [[_ H]|[_ H]];
      rewrite H in E1; auto. }
  destruct (truthy (API_KEY env) && _ && _) eqn:E2; [|reflexivity].
  exfalso. apply Hkey.
  apply andb_true_iff in E2 as [E2 E3]. apply andb_true_iff in E2 as [E2 _].
  apply strict_eq_true in E3. split; [done|].
  destruct (or_cases (header req "x-api-key") (q req "api_key")) as [[_ H]|[_ H]];
    rewrite H in E3; auto.
Qed.

(** C1. A request that shows neither the configured password (header or
    query) nor, when an API key is configured, that key (header or query)
    is answered 401 with the one body [unauthorized]: whatever two such
    requests carry (nothing, empty strings, wrong values), their responses
    are the same function of the clock reading alone. *)
Theorem rejection_is_uniform env now1 now2 r1 r2 :
  ¬ presents_password env r1 → ¬ presents_api_key env r1 →
  ¬ presents_password env r2 → ¬ presents_api_key env r2 →
  authenticate env now1 r1 = Respond (unauthorized now1) ∧
  authenticate env now2 r2 = Respond (unauthorized now2) ∧
  (now1 = now2 → authenticate env now1 r1 = authenticate env now2 r2).
Proof.
  intros H1 H1' H2 H2'.
  rewrite (authenticate_rejects env now1 r1), (authenticate_rejects env now2 r2) by done.
  split_and!; [done..|]. by intros ->.
Qed.

(** The gate changes nothing of the request but the tag. *)
Lemma tag_keeps kind req :
  authMethod (tag kind req) = Some kind ∧
  method (tag kind req) = method req ∧ headers (tag kind req) = headers req ∧
  query (tag kind req) = query req ∧ params (tag kind req) = params req ∧
  body (tag kind req) = body req.
Proof. done. Qed.

(** C2. A request whose supplied password (the [x-password] header, else
    the [password] query parameter) is the configured password is passed on
    to the handler with [authMethod] set to ["password"] and nothing else
    changed, whatever API key it carries and whether or not that key is
    valid. *)
Theorem valid_password_admits env now req :
  or (header req "x-password") (q req "password") = BACKEND_PASSWORD env →
  ∃ req',
    authenticate env now req = Next req' ∧
    authMethod req' = Some "password" ∧
    method req' = method req ∧ headers req' = headers req ∧
    query req' = query req ∧ params req' = params req ∧ body req' = body req.
Proof.
  intros H. exists (tag "password" req). split; [|apply tag_keeps].
  unfold authenticate. rewrite H.
  destruct (BACKEND_PASSWORD_string env) as (s & -> & Hs).
  rewrite strict_eq_str. apply truthy_str in Hs. by rewrite Hs.
Qed.

Import Sample.

Lemma rejection_is_uniform_witness :
  (¬ presents_password env_full anonymous ∧ ¬ presents_api_key env_full anonymous ∧
   ¬ presents_password env_full wrong_password ∧ ¬ presents_api_key env_full wrong_password) ∧
  authenticate env_full t0 anonymous = Respond (unauthorized t0) ∧
  authenticate env_full t0 wrong_password = Respond (unauthorized t0) ∧
  (t0 = t0 → authenticate env_full t0 anonymous = authenticate env_full t0 wrong_password).
Proof.
  assert (Ha : ¬ presents_password env_full anonymous)
    by (intros [H|H]; vm_compute in H; discriminate).
  assert (Ha' : ¬ presents_api_key env_full anonymous)
    by (intros [_ [H|H]]; vm_compute in H; discriminate).
  assert (Hw : ¬ presents_password env_full wrong_password)
    by (intros [H|H]; vm_compute in H; discriminate).
  assert (Hw' : ¬ presents_api_key env_full wrong_password)
    by (intros [_ [H|H]]; vm_compute in H; discriminate).
  split; [by split_and!|].
  exact (rejection_is_uniform env_full t0 t0 anonymous wrong_password Ha Ha' Hw Hw').
Defined.

Lemma valid_password_admits_witness :
  or (header both_valid "x-password") (q both_valid "password") = BACKEND_PASSWORD env_full ∧
  ∃ req',
    authenticate env_full t0 both_valid = Next req' ∧
    authMethod req' = Some "password" ∧
    method req' = method both_valid ∧ headers req' = headers both_valid ∧
    query req' = query both_valid ∧ params req' = params both_valid ∧
    body req' = body both_valid.
Proof.
  split; [reflexivity|].
  apply (valid_password_admits env_full t0 both_valid). reflexivity.
Defined.

(** With both credentials valid the password check answers first; a valid
    password next to a wrong key is admitted the same way. *)
Example both_valid_is_tagged_password :
  authenticate env_full t0 both_valid =
    Next (Request "GET" (headers both_valid) ∅ ∅ (VObj ∅) (Some "password")) ∧
  authenticate env_full t0 good_password_bad_key =
    Next (Request "GET" (headers good_password_bad_key) ∅ ∅ (VObj ∅) (Some "password")).
Proof. split; reflexivity. Qed.

(** A wrong password does not stop a valid API key. *)
Example key_in_query_is_tagged_api_key :
  authenticate env_full t0 key_in_query =
    Next (Request "GET" (headers key_in_query) (query key_in_query) ∅ (VObj ∅)
                  (Some "api_key")).
Proof. reflexivity. Qed.

(** The empty password of the query string is rejected like a missing one. *)
Example empty_password_rejected :
  authenticate env_bare t0 empty_password = Respond (unauthorized t0) ∧
  authenticate env_bare t0 anonymous = Respond (unauthorized t0).
Proof. split; reflexivity. Qed.

(** ** The forwarder *)

Lemma authenticate_next env now req req' :
  authenticate env now req = Next req' → ∃ kind, req' = tag kind req.
Proof.
  intros H. destruct (authenticate_cases env now req) as [[kind Hk]|Hr].
  - exists kind. congruence.
  - congruence.
Qed.

Lemma octokit_none_iff env client :
  octokit env client = None ↔ token_set env = false.
Proof.
  unfold octokit, token_set, GITHUB_TOKEN, env_value.
  destruct (env_ACESS_TOKEN env) as [s|]; simpl; [|done].
  destruct (negb (bool_decide (s = ""))); split; done.
Qed.

(** A guarded route runs its handler on the tagged request. *)
Lemma guarded_next env now (h : handler) req req' :
  authenticate env now req = Next req' → guarded env now h req = h req'.
Proof. intros H. unfold guarded. by rewrite H. Qed.

(** One awaited call inside [try]: the call is logged once, and a rejection
    goes to the [catch] block. *)
Lemma try_await kit c (f : octokit_response → Async response) h :
  try_catch (r ← await kit c; f r) h =
  match kit c with
  | Fulfilled r => ((try_catch (f r) h).1, c :: (f r).2)
  | Rejected e => (h e, [c])
  end.
Proof.
  unfold try_catch, await, mbind, Async_bind. simpl.
  destruct (kit c) as [r|e]; simpl; [|done].
  destruct (f r) as [[e|x] l]; done.
Qed.

(** C3. With no upstream client configured, every route registered behind
    the gate answers every admitted request with the 500 Configuration
    error and makes no outbound call. *)
Theorem no_client_no_call env now proc client rt req req' :
  protected rt = true →
  octokit env client = None →
  authenticate env now req = Next req' →
  app env now proc client rt req = (configuration_error, []).
Proof.
  intros Hp Hnone Hauth.
  destruct rt; try discriminate Hp; unfold app;
    rewrite (guarded_next _ _ _ _ _ Hauth);
    match goal with |- ?h _ _ _ _ = _ => unfold h end;
    rewrite Hnone; reflexivity.
Qed.

Lemma no_client_no_call_witness :
  (protected POST_github_repo_issues = true ∧
   octokit env_bare client_ok = None ∧
   authenticate env_bare t0 default_new_issue = Next (tag "password" default_new_issue)) ∧
  app env_bare t0 proc0 client_ok POST_github_repo_issues default_new_issue
    = (configuration_error, []).
Proof.
  split; [split_and!; reflexivity|].
  apply (no_client_no_call env_bare t0 proc0 client_ok POST_github_repo_issues
           default_new_issue (tag "password" default_new_issue)); reflexivity.
Defined.

(** *** Issue creation *)

Lemma bind_ret {A B : Type} (x : A) (f : A → Async B) : (mret x ≫= f) = f x.
Proof. unfold mbind, Async_bind, mret, Async_ret. simpl. by destruct (f x). Qed.

Lemma get_prop_defined v k x k' :
  get_prop v k = Some x → ∃ y, get_prop v k' = Some y.
Proof. destruct v; simpl; try discriminate; eauto. Qed.

Lemma destructure_some name src k x :
  get_prop src k = Some x → destructure name src k = mret x.
Proof. intros H. unfold destructure. by rewrite H. Qed.

(** Whatever the body is, a falsy title is refused before any call. *)
Lemma post_issue_falsy_title env now client kit req title :
  octokit env client = Some kit →
  get_prop (body req) "title" = Some title →
  truthy title = false →
  post_github_repo_issues env now client req
    = (validation_error now "Title is required", []).
Proof.
  intros Hkit Ht Hf. unfold post_github_repo_issues. rewrite Hkit.
  destruct (get_prop_defined _ _ _ "body" Ht) as [b Hb].
  destruct (get_prop_defined _ _ _ "labels" Ht) as [l Hl].
  destruct (get_prop_defined _ _ _ "assignees" Ht) as [a Ha].
  destruct (get_prop_defined _ _ _ "milestone" Ht) as [m Hm].
  rewrite (destructure_some _ _ _ _ Ht), (destructure_some _ _ _ _ Hb),
    (destructure_some _ _ _ _ Hl), (destructure_some _ _ _ _ Ha),
    (destructure_some _ _ _ _ Hm).
  rewrite !bind_ret, Hf. reflexivity.
Qed.

(** A truthy title makes exactly one [issues.create] call that carries the
    five fields read from the body. *)
Lemma post_issue_truthy_title env now client kit req fields title :
  octokit env client = Some kit →
  body req = VObj fields →
  get fields "title" = title →
  truthy title = true →
  (post_github_repo_issues env now client req).2 =
    [Call issues_create [VObj (obj [
       ("owner", param req "owner");
       ("repo", param req "repo");
       ("title", title);
       ("body", get fields "body");
       ("labels", get fields "labels");
       ("assignees", get fields "assignees");
       ("milestone", get fields "milestone")])]].
Proof.
  intros Hkit Hb Ht Htrue.
  unfold post_github_repo_issues. rewrite Hkit, Hb.
  rewrite !(destructure_some _ (VObj fields) _ _ eq_refl).
  rewrite !bind_ret. change (own_props (VObj fields)) with fields.
  rewrite Ht, Htrue. cbn [negb]. rewrite try_await.
  destruct (kit _); reflexivity.
Qed.

(** C4. With a client configured, an admitted issue-creation request whose
    body has no title or an empty title is answered 400 "Validation Error"
    with no outbound call; one whose title is a non-empty string makes
    exactly one [issues.create] call, carrying the path's owner and repo
    and the body's title, body, labels, assignees and milestone as they
    are. *)
Theorem issue_creation_validates_title env now proc client kit req req' fields :
  octokit env client = Some kit →
  authenticate env now req = Next req' →
  body req = VObj fields →
  ((fields !! "title" = None ∨ fields !! "title" = Some (VStr "")) →
   app env now proc client POST_github_repo_issues req
     = (validation_error now "Title is required", []))
  ∧
  (∀ s, fields !! "title" = Some (VStr s) → s ≠ "" →
   (app env now proc client POST_github_repo_issues req).2 =
     [Call issues_create [VObj (obj [
        ("owner", param req "owner");
        ("repo", param req "repo");
        ("title", VStr s);
        ("body", get fields "body");
        ("labels", get fields "labels");
        ("assignees", get fields "assignees");
        ("milestone", get fields "milestone")])]]).
Proof.
  intros Hkit Hauth Hb.
  destruct (authenticate_next _ _ _ _ Hauth) as [kind ->].
  unfold app. rewrite (guarded_next _ _ _ _ _ Hauth). split.
  - intros Ht.
    apply (post_issue_falsy_title env now client kit _ (get fields "title")); [done| |].
    + simpl. rewrite Hb. reflexivity.
    + unfold get. destruct Ht as [-> | ->]; reflexivity.
  - intros s Ht Hs.
    apply (post_issue_truthy_title env now client kit (tag kind req) fields (VStr s));
      [done|done| |].
    + unfold get. by rewrite Ht.
    + by apply truthy_str.
Qed.

Lemma issue_creation_validates_title_witness :
  (octokit env_full client_ok = Some client_ok ∧
   authenticate env_full t0 new_issue = Next (tag "password" new_issue) ∧
   body new_issue = VObj new_issue_fields) ∧
  ((new_issue_fields !! "title" = None ∨ new_issue_fields !! "title" = Some (VStr "")) →
   app env_full t0 proc0 client_ok POST_github_repo_issues new_issue
     = (validation_error t0 "Title is required", []))
  ∧
  (∀ s, new_issue_fields !! "title" = Some (VStr s) → s ≠ "" →
   (app env_full t0 proc0 client_ok POST_github_repo_issues new_issue).2 =
     [Call issues_create [VObj (obj [
        ("owner", param new_issue "owner");
        ("repo", param new_issue "repo");
        ("title", VStr s);
        ("body", get new_issue_fields "body");
        ("labels", get new_issue_fields "labels");
        ("assignees", get new_issue_fields "assignees");
        ("milestone", get new_issue_fields "milestone")])]]).
Proof.
  split; [split_and!; reflexivity|].
  apply (issue_creation_validates_title env_full t0 proc0 client_ok client_ok new_issue
           (tag "password" new_issue) new_issue_fields); reflexivity.
Defined.

Example new_issue_is_forwarded :
  app env_full t0 proc0 client_ok POST_github_repo_issues new_issue =
  (Response 201 (VObj (obj [
     ("success", VBool true);
     ("data", VArr two_items);
     ("message", VStr "Issue created successfully");
     ("timestamp", VStr t0)])),
   [Call issues_create [VObj (obj [
      ("owner", VStr "octo");
      ("repo", VStr "hello");
      ("title", VStr "Bug");
      ("body", VStr "It broke");
      ("labels", VArr [VStr "bug"]);
      ("assignees", VUndefined);
      ("milestone", VUndefined)])]]).
Proof. reflexivity. Qed.

Example untitled_issue_is_refused :
  app env_full t0 proc0 client_ok POST_github_repo_issues untitled_issue
  = (validation_error t0 "Title is required", []).
Proof. reflexivity. Qed.

(** *** Repository search *)

Lemma bind_throw {A B : Type} (e : js_error) (f : A → Async B) :
  (throw e ≫= f) = throw e.
Proof. reflexivity. Qed.

Lemma try_throw (e : js_error) (h : js_error → response) :
  try_catch (throw e) h = (h e, []).
Proof. reflexivity. Qed.

(** The page size every paginated handler computes. *)
Lemma per_page_sent (read : number) :
  Math_min (num_or read (Int 30)) (Int 100) = Int (sent_per_page read).
Proof.
  unfold sent_per_page, num_or. destruct read as [|n]; simpl; [done|].
  destruct (n =? 0); reflexivity.
Qed.

Lemma sent_per_page_le (read : number) : sent_per_page read ≤ 100.
Proof.
  unfold sent_per_page. destruct read as [|n]; [lia|].
  destruct (n =? 0); lia.
Qed.

Example per_page_500 : sent_per_page <$> parseInt (VStr "500") = Some 100.
Proof. reflexivity. Qed.
Example per_page_absent : sent_per_page <$> parseInt VUndefined = Some 30.
Proof. reflexivity. Qed.
Example per_page_words : sent_per_page <$> parseInt (VStr "many") = Some 30.
Proof. reflexivity. Qed.

(** C5, as stated, fails: a caller who supplies [per_page=0] supplies a
    number, whose minimum with 100 is 0, yet the outbound call asks for 30. *)
Lemma per_page_zero_is_replaced :
  (app env_full t0 proc0 client_ok GET_github_search_repos (search "0")).2 =
    [Call search_repos [VObj (obj [
       ("q", VStr "rocq");
       ("sort", VUndefined);
       ("order", VUndefined);
       ("per_page", VNum (Int 30));
       ("page", VNum (Int 1))])]]
  ∧ claimed_per_page (q (search "0") "per_page") = Int 0
  ∧ VNum (Int 30) ≠ VNum (claimed_per_page (q (search "0") "per_page")).
Proof. split_and!; [by vm_compute | reflexivity | discriminate]. Qed.

(** The search handler once the client is there and the query term given:
    by what [parseInt] makes of [per_page] and [page]. *)
Lemma search_with_term env now client kit req :
  octokit env client = Some kit →
  truthy (q req "q") = true →
  get_github_search_repos env now client req =
    match parseInt (q req "per_page"), parseInt (q req "page") with
    | Some per_page, Some page =>
        try_catch
          (r ← await kit (Call search_repos [VObj (obj [
             ("q", q req "q");
             ("sort", q req "sort");
             ("order", q req "order");
             ("per_page", VNum (Int (sent_per_page per_page)));
             ("page", VNum (num_or page (Int 1)))])]);
           mret (Response 200 (VObj (obj [
             ("success", VBool true);
             ("data", data r);
             ("timestamp", VStr now)]))))
          (api_error now)
    | _, _ => (api_error now cannot_convert, [])
    end.
Proof.
  intros Hkit Hq. unfold get_github_search_repos. rewrite Hkit, Hq. cbn [negb].
  destruct (parseInt (q req "per_page")) as [n|]; cbn [attempt]; [|done].
  rewrite bind_ret.
  destruct (parseInt (q req "page")) as [p|]; cbn [attempt]; [|done].
  by rewrite bind_ret, per_page_sent.
Qed.

(** C5, amended. With a client configured, an admitted search with no [q]
    or an empty [q] is answered 400 "Validation Error" with no outbound
    call.  One with a query term makes exactly one [search.repos] call when
    [parseInt] can read [per_page] and [page]; the call's [per_page] is the
    integer read capped at 100, or 30 when none is read or it is zero:
    never more than 100.  When [parseInt] throws on either (a value that
    cannot be converted to a string), the answer is 500 and no call is
    made. *)
Theorem search_repos_forwarding env now proc client kit req req' :
  octokit env client = Some kit →
  authenticate env now req = Next req' →
  ((query req !! "q" = None ∨ query req !! "q" = Some (VStr "")) →
   app env now proc client GET_github_search_repos req
     = (validation_error now "Search query (q) parameter is required", []))
  ∧
  (truthy (q req "q") = true →
   ∀ read page,
     parseInt (q req "per_page") = Some read →
     parseInt (q req "page") = Some page →
     ∃ params,
       (app env now proc client GET_github_search_repos req).2
         = [Call search_repos [VObj params]] ∧
       params !! "q" = Some (q req "q") ∧
       params !! "per_page" = Some (VNum (Int (sent_per_page read))) ∧
       sent_per_page read ≤ 100)
  ∧
  (truthy (q req "q") = true →
   parseInt (q req "per_page") = None ∨ parseInt (q req "page") = None →
   (app env now proc client GET_github_search_repos req).2 = [] ∧
   status (app env now proc client GET_github_search_repos req).1 = 500).
Proof.
  intros Hkit Hauth.
  destruct (authenticate_next _ _ _ _ Hauth) as [kind ->].
  unfold app. rewrite (guarded_next _ _ _ _ _ Hauth). split_and!.
  - intros Hq. unfold get_github_search_repos. rewrite Hkit.
    change (q (tag kind req)) with (q req).
    replace (truthy (q req "q")) with false; [reflexivity|].
    unfold q, get. destruct Hq as [-> | ->]; reflexivity.
  - intros Hq read page Hn Hp.
    rewrite (search_with_term env now client kit (tag kind req) Hkit Hq).
    change (q (tag kind req)) with (q req). rewrite Hn, Hp, try_await.
    eexists. split_and!; [destruct (kit _); reflexivity | reflexivity..|].
    apply sent_per_page_le.
  - intros Hq Hnone.
    rewrite (search_with_term env now client kit (tag kind req) Hkit Hq).
    change (q (tag kind req)) with (q req).
    destruct Hnone as [-> | ->]; [done|].
    by destruct (parseInt (q req "per_page")).
Qed.

Lemma search_repos_forwarding_witness :
  (octokit env_full client_ok = Some client_ok ∧
   authenticate env_full t0 (search "500") = Next (tag "password" (search "500"))) ∧
  ((query (search "500") !! "q" = None ∨ query (search "500") !! "q" = Some (VStr "")) →
   app env_full t0 proc0 client_ok GET_github_search_repos (search "500")
     = (validation_error t0 "Search query (q) parameter is required", []))
  ∧
  (truthy (q (search "500") "q") = true →
   ∀ read page,
     parseInt (q (search "500") "per_page") = Some read →
     parseInt (q (search "500") "page") = Some page →
     ∃ params,
       (app env_full t0 proc0 client_ok GET_github_search_repos (search "500")).2
         = [Call search_repos [VObj params]] ∧
       params !! "q" = Some (q (search "500") "q") ∧
       params !! "per_page" = Some (VNum (Int (sent_per_page read))) ∧
       sent_per_page read ≤ 100)
  ∧
  (truthy (q (search "500") "q") = true →
   parseInt (q (search "500") "per_page") = None ∨
   parseInt (q (search "500") "page") = None →
   (app env_full t0 proc0 client_ok GET_github_search_repos (search "500")).2 = [] ∧
   status (app env_full t0 proc0 client_ok GET_github_search_repos (search "500")).1 = 500).
Proof.
  split; [split; reflexivity|].
  apply (search_repos_forwarding env_full t0 proc0 client_ok client_ok (search "500")
           (tag "password" (search "500"))); reflexivity.
Defined.

(** The three page sizes side by side: 500 is capped, a no-break space
    before the 5 is skipped, and an object with its own [toString] stops the
    handler before any call. *)
Example search_page_sizes :
  (app env_full t0 proc0 client_ok GET_github_search_repos (search "500")).2
    = [search_call 100] ∧
  (app env_full t0 proc0 client_ok GET_github_search_repos
       (search (String (ascii_of_N 194) (String (ascii_of_N 160) "5")))).2
    = [search_call 5] ∧
  app env_full t0 proc0 client_ok GET_github_search_repos search_own_toString
    = (Response 500 (VObj (obj [
         ("error", VStr "GitHub API Error");
         ("message", VStr "Cannot convert object to primitive value");
         ("timestamp", VStr t0)])), []).
Proof. split_and!; by vm_compute. Qed.

(** *** Success and failure envelopes *)

Lemma prop_array_length (items : list value) :
  prop (VArr items) "length" = mret (VNum (Int (Z.of_nat (List.length items)))).
Proof. reflexivity. Qed.

Ltac unfold_handlers :=
  unfold get_github_user, get_github_user_repos, get_github_user_orgs, get_github_repos,
    get_github_repo, get_github_repo_contents, get_github_repo_commits,
    get_github_repo_branches, get_github_repo_issues, get_github_repo_issue,
    post_github_repo_issues, patch_github_repo_issue, get_github_search_repos,
    get_github_rate_limit, all_github_api.

(** Runs the [parseInt] calls that come before the outbound call: a path
    parameter always parses; a query value parses or throws, which ends the
    [try] block with no call. *)
Ltac read_numbers :=
  cbv zeta;
  repeat match goal with
  | |- context [attempt (parseInt (param ?req ?k))] =>
      let n := fresh "n" in
      let E := fresh "E" in
      destruct (parseInt_param req k) as [n E]; rewrite E; cbn [attempt];
      rewrite ?bind_ret
  | |- context [attempt (parseInt ?v)] =>
      let n := fresh "n" in
      let E := fresh "E" in
      destruct (parseInt v) as [n|] eqn:E; cbn [attempt];
      rewrite ?bind_ret, ?bind_throw, ?try_throw
  end.

(** What follows the outbound call in a handler reads and answers: it makes
    no call. *)
Ltac silent :=
  intros ?; unfold prop; repeat case_match; reflexivity.

(** A [try] block that awaits one call and then answers without calling
    again: if the call it made rejects, the [catch] block answers and the
    log holds that call alone. *)
Lemma try_await_rejected kit c0 (f : octokit_response → Async response) h c e :
  (∀ r, (f r).2 = []) →
  c ∈ (try_catch (r ← await kit c0; f r) h).2 →
  kit c = Rejected e →
  try_catch (r ← await kit c0; f r) h = (h e, [c]).
Proof.
  intros Hf Hin Hk. rewrite try_await in *.
  destruct (kit c0) as [r|e0] eqn:E; simpl in Hin.
  - rewrite Hf in Hin. apply list_elem_of_singleton in Hin. congruence.
  - apply list_elem_of_singleton in Hin. subst c0. congruence.
Qed.

(** The same when the call it made resolves: the rest of the block runs on
    the result. *)
Lemma try_await_fulfilled kit c0 (f : octokit_response → Async response) h c r :
  (∀ r, (f r).2 = []) →
  c ∈ (try_catch (r ← await kit c0; f r) h).2 →
  kit c = Fulfilled r →
  try_catch (r ← await kit c0; f r) h = ((try_catch (f r) h).1, [c]).
Proof.
  intros Hf Hin Hk. rewrite try_await in *.
  destruct (kit c0) as [r0|e0] eqn:E; simpl in Hin.
  - rewrite Hf in *. apply list_elem_of_singleton in Hin. subst c0.
    rewrite Hk in E. by injection E as ->.
  - apply list_elem_of_singleton in Hin. subst c0. congruence.
Qed.

Lemma prop_then_ret_silent v k (g : value → response) :
  (prop v k ≫= λ x, mret (g x) : Async response).2 = [].
Proof. unfold prop. destruct (get_prop v k); reflexivity. Qed.

Lemma no_call_made (c : call) (res : response) (P : Prop) :
  c ∈ (res, @nil call).2 → P.
Proof. intros H. by apply elem_of_nil in H. Qed.

(** Decides the search handler's test of the query term. *)
Ltac check_term :=
  try match goal with
      | |- context [if negb (truthy ?x) then _ else _] =>
          destruct (truthy x) eqn:?; cbn [negb]
      end.

(** Closes the cases in which the handler answered without a call, when the
    goal supposes a call was made. *)
Ltac no_call :=
  try apply no_call_made;
  try (let H := fresh in intros H; by apply elem_of_nil in H).

(** C6. On each of the six list routes, when the call an admitted request
    made succeeds with an array of N items, the response is 200 with
    [success: true], [data] the array as received, [count: N] and the
    timestamp, and that call is the only one made. *)
Theorem list_envelope env now proc client kit rt req req' c items st :
  lists rt = true →
  octokit env client = Some kit →
  authenticate env now req = Next req' →
  c ∈ (app env now proc client rt req).2 →
  kit c = Fulfilled (OctokitResponse (VArr items) st) →
  (app env now proc client rt req).2 = [c] ∧
  ∃ envelope,
    (app env now proc client rt req).1 = Response 200 (VObj envelope) ∧
    envelope !! "success" = Some (VBool true) ∧
    envelope !! "data" = Some (VArr items) ∧
    envelope !! "count" = Some (VNum (Int (Z.of_nat (List.length items)))) ∧
    envelope !! "timestamp" = Some (VStr now).
Proof.
  intros Hl Hkit Hauth Hin Hk. revert Hin.
  destruct rt; try discriminate Hl; unfold app;
    rewrite (guarded_next _ _ _ _ _ Hauth); unfold_handlers; rewrite Hkit;
    read_numbers; try apply no_call_made; intros Hin;
    (rewrite (try_await_fulfilled _ _ _ _ c (OctokitResponse (VArr items) st));
     [|silent|done..]);
    cbn [data]; rewrite prop_array_length, !bind_ret;
    (split; [reflexivity|]); eexists; split_and!; reflexivity.
Qed.

Lemma api_error_envelope now e :
  ∃ envelope,
    api_error now e = Response (status_or e 500) (VObj envelope) ∧
    envelope !! "error" = Some (VStr "GitHub API Error") ∧
    envelope !! "message" = Some (VStr (err_message e)) ∧
    envelope !! "timestamp" = Some (VStr now).
Proof. eexists. split_and!; reflexivity. Qed.

Lemma api_error_with_status_envelope now e :
  ∃ envelope,
    api_error_with_status now e = Response (status_or e 500) (VObj envelope) ∧
    envelope !! "error" = Some (VStr "GitHub API Error") ∧
    envelope !! "message" = Some (VStr (err_message e)) ∧
    envelope !! "timestamp" = Some (VStr now).
Proof. eexists. split_and!; reflexivity. Qed.

(** Every guarded handler, once a client is there, either answers without a
    call or awaits one call and hands a rejection to its [catch] block. *)
Lemma rejected_call_is_reported env now proc client kit rt req req' c e :
  protected rt = true →
  octokit env client = Some kit →
  authenticate env now req = Next req' →
  c ∈ (app env now proc client rt req).2 →
  kit c = Rejected e →
  app env now proc client rt req = (api_error now e, [c]) ∨
  app env now proc client rt req = (api_error_with_status now e, [c]).
Proof.
  intros Hp Hkit Hauth Hin Hk. revert Hin.
  destruct rt; try discriminate Hp; unfold app;
    rewrite (guarded_next _ _ _ _ _ Hauth); unfold_handlers; rewrite Hkit;
    check_term; read_numbers; no_call; intros Hin.
  all: try (left; by apply try_await_rejected; [silent|..]).
  all: try (right; by apply try_await_rejected; [silent|..]).
  (* issue creation: the body is read and the title checked first *)
  destruct (get_prop (body req') "title") as [t|] eqn:Ht.
  - destruct (get_prop_defined _ _ _ "body" Ht) as [b Hb].
    destruct (get_prop_defined _ _ _ "labels" Ht) as [l Hl].
    destruct (get_prop_defined _ _ _ "assignees" Ht) as [a Ha].
    destruct (get_prop_defined _ _ _ "milestone" Ht) as [m Hm].
    rewrite (destructure_some _ _ _ _ Ht), (destructure_some _ _ _ _ Hb),
      (destructure_some _ _ _ _ Hl), (destructure_some _ _ _ _ Ha),
      (destructure_some _ _ _ _ Hm), !bind_ret in *.
    destruct (truthy t); cbn [negb] in *.
    + left. apply try_await_rejected; [|done..]. intros r; reflexivity.
    + by apply elem_of_nil in Hin.
  - unfold destructure in Hin. rewrite Ht in Hin. by apply elem_of_nil in Hin.
Qed.

(** C7. When the call a guarded handler made fails, the response status is
    the status the upstream reported (a non-zero number), or 500 when the
    error carries none; the body carries the label "GitHub API Error", the
    upstream message as it is, and the timestamp; and the failed call is
    the only call made. *)
Theorem upstream_failure_passes_through env now proc client kit rt req req' c e :
  protected rt = true →
  octokit env client = Some kit →
  authenticate env now req = Next req' →
  c ∈ (app env now proc client rt req).2 →
  kit c = Rejected e →
  (app env now proc client rt req).2 = [c] ∧
  (∀ s, err_status e = Some s → s ≠ 0 →
     status (app env now proc client rt req).1 = s) ∧
  (err_status e = None → status (app env now proc client rt req).1 = 500) ∧
  ∃ envelope,
    json (app env now proc client rt req).1 = VObj envelope ∧
    envelope !! "error" = Some (VStr "GitHub API Error") ∧
    envelope !! "message" = Some (VStr (err_message e)) ∧
    envelope !! "timestamp" = Some (VStr now).
Proof.
  intros Hp Hkit Hauth Hin Hk.
  assert (Hs : ∀ s, err_status e = Some s → s ≠ 0 → status_or e 500 = s).
  { intros s Hs Hne. unfold status_or. rewrite Hs.
    destruct (Z.eqb_spec s 0); [done|reflexivity]. }
  assert (Hn : err_status e = None → status_or e 500 = 500).
  { intros Hn. unfold status_or. by rewrite Hn. }
  destruct (rejected_call_is_reported env now proc client kit rt req req' c e)
    as [-> | ->]; try done.
  - destruct (api_error_envelope now e) as (m & -> & ?). cbn [fst snd status json]. eauto 10.
  - destruct (api_error_with_status_envelope now e) as (m & -> & ?).
    cbn [fst snd status json]. eauto 10.
Qed.

Lemma list_envelope_witness :
  (lists GET_github_repo_issues = true ∧
   octokit env_full client_ok = Some client_ok ∧
   authenticate env_full t0 list_issues = Next (tag "password" list_issues) ∧
   list_issues_call
     ∈ (app env_full t0 proc0 client_ok GET_github_repo_issues list_issues).2 ∧
   client_ok list_issues_call = Fulfilled (OctokitResponse (VArr two_items) 200)) ∧
  (app env_full t0 proc0 client_ok GET_github_repo_issues list_issues).2
    = [list_issues_call] ∧
  ∃ envelope,
    (app env_full t0 proc0 client_ok GET_github_repo_issues list_issues).1
      = Response 200 (VObj envelope) ∧
    envelope !! "success" = Some (VBool true) ∧
    envelope !! "data" = Some (VArr two_items) ∧
    envelope !! "count" = Some (VNum (Int (Z.of_nat (List.length two_items)))) ∧
    envelope !! "timestamp" = Some (VStr t0).
Proof.
  assert (Hin : list_issues_call
     ∈ (app env_full t0 proc0 client_ok GET_github_repo_issues list_issues).2)
    by (apply list_elem_of_singleton; by vm_compute).
  split; [split_and!; first [reflexivity | exact Hin]|].
  exact (list_envelope env_full t0 proc0 client_ok client_ok GET_github_repo_issues
           list_issues (tag "password" list_issues) list_issues_call two_items 200
           eq_refl eq_refl eq_refl Hin eq_refl).
Defined.

Example list_issues_answer :
  app env_full t0 proc0 client_ok GET_github_repo_issues list_issues =
  (Response 200 (VObj (obj [
     ("success", VBool true);
     ("data", VArr two_items);
     ("count", VNum (Int 2));
     ("timestamp", VStr t0)])),
   [list_issues_call]).
Proof. reflexivity. Qed.

Lemma upstream_failure_passes_through_witness :
  (protected GET_github_repo = true ∧
   octokit env_full client_404 = Some client_404 ∧
   authenticate env_full t0 read_repo = Next (tag "password" read_repo) ∧
   read_repo_call ∈ (app env_full t0 proc0 client_404 GET_github_repo read_repo).2 ∧
   client_404 read_repo_call = Rejected not_found) ∧
  (app env_full t0 proc0 client_404 GET_github_repo read_repo).2 = [read_repo_call] ∧
  (∀ s, err_status not_found = Some s → s ≠ 0 →
     status (app env_full t0 proc0 client_404 GET_github_repo read_repo).1 = s) ∧
  (err_status not_found = None →
     status (app env_full t0 proc0 client_404 GET_github_repo read_repo).1 = 500) ∧
  ∃ envelope,
    json (app env_full t0 proc0 client_404 GET_github_repo read_repo).1 = VObj envelope ∧
    envelope !! "error" = Some (VStr "GitHub API Error") ∧
    envelope !! "message" = Some (VStr (err_message not_found)) ∧
    envelope !! "timestamp" = Some (VStr t0).
Proof.
  assert (Hin : read_repo_call ∈ (app env_full t0 proc0 client_404 GET_github_repo read_repo).2)
    by (apply list_elem_of_singleton; reflexivity).
  split; [split_and!; first [reflexivity | exact Hin]|].
  apply (upstream_failure_passes_through env_full t0 proc0 client_404 client_404
           GET_github_repo read_repo (tag "password" read_repo) read_repo_call not_found);
    first [reflexivity | exact Hin].
Defined.

Example read_repo_not_found :
  app env_full t0 proc0 client_404 GET_github_repo read_repo =
  (Response 404 (VObj (obj [
     ("error", VStr "GitHub API Error");
     ("message", VStr "Not Found");
     ("timestamp", VStr t0)])),
   [read_repo_call]).
Proof. reflexivity. Qed.

(** [error.status || 500] also replaces a status of 0, which no HTTP
    response carries. *)
Example status_zero_is_500 : status_or (JsError (Some 0) "aborted") 500 = 500.
Proof. reflexivity. Qed.

(** An error without a status, such as a network failure, is answered 500. *)
Example read_repo_no_status :
  app env_full t0 proc0 (λ _, Rejected (JsError None "socket hang up"))
      GET_github_repo read_repo =
  (Response 500 (VObj (obj [
     ("error", VStr "GitHub API Error");
     ("message", VStr "socket hang up");
     ("timestamp", VStr t0)])),
   [read_repo_call]).
Proof. reflexivity. Qed.

(** *** Health routes *)

Lemma token_set_truthy env : truthy (GITHUB_TOKEN env) = token_set env.
Proof.
  unfold GITHUB_TOKEN, token_set, env_value. by destruct (env_ACESS_TOKEN env).
Qed.

Lemma password_changed_strict env :
  negb (strict_eq (BACKEND_PASSWORD env) (VStr "change-this-secure-password"))
  = password_changed env.
Proof.
  unfold BACKEND_PASSWORD, password_changed, env_value, or.
  destruct (env_BACKEND_PASSWORD env) as [s|]; simpl; [|done].
  destruct (bool_decide (s = "")); simpl; done.
Qed.

(** C8, as stated, fails on [/health]: with no upstream credential the
    route answers 503, not 200. *)
Lemma health_is_503_without_token :
  token_set env_bare = false ∧
  status (app env_bare t0 proc0 client_ok GET_health anonymous).1 = 503 ∧
  status (app env_bare t0 proc0 client_ok GET_health anonymous).1 ≠ 200.
Proof. split_and!; [reflexivity | by vm_compute | by vm_compute]. Qed.

(** [Object.values(health.checks).every(...)]: the server check is always
    ok, so the verdict is the conjunction of the other two. *)
Lemma overall_healthy (token password : bool) :
  forallb (λ check, strict_eq check (VStr "ok") || strict_eq check (VStr "configured")
                    || strict_eq check (VStr "secure"))
          (snd <$> map_to_list (obj [
             ("server", VStr "ok");
             ("github_api", if token then VStr "configured" else VStr "not_configured");
             ("authentication", if password then VStr "secure" else VStr "default_password")]))
  = token && password.
Proof. destruct token, password; by vm_compute. Qed.

(** C8, amended. Neither route consults the gate.  [/status] always answers
    200 and reports [github_token_configured] as true exactly when an
    upstream credential is set.  [/health] reports [github_api] as
    configured or not and [authentication] as secure exactly when the
    password differs from the default, and answers 200 when both hold and
    503 otherwise. *)
Theorem health_routes_report_configuration env now proc client req :
  (∃ report,
     app env now proc client GET_status req = (Response 200 (VObj report), []) ∧
     report !! "github_token_configured" = Some (VBool (token_set env)))
  ∧
  (∃ report checks,
     app env now proc client GET_health req =
       (Response (if token_set env && password_changed env then 200 else 503)
                 (VObj report), []) ∧
     report !! "checks" = Some (VObj checks) ∧
     checks !! "github_api" =
       Some (VStr (if token_set env then "configured" else "not_configured")) ∧
     checks !! "authentication" =
       Some (VStr (if password_changed env then "secure" else "default_password"))).
Proof.
  split.
  - eexists. split; [reflexivity|]. by rewrite <- token_set_truthy.
  - unfold app, get_health, health_checks.
    rewrite token_set_truthy, password_changed_strict, overall_healthy.
    do 2 eexists. split_and!; [reflexivity | reflexivity | |].
    + by destruct (token_set env).
    + by destruct (password_changed env).
Qed.

(** *** Object spread *)

(** A key of the spread value wins. *)
Lemma spread_overrides o src k v :
  own_props src !! k = Some v → spread o src !! k = Some v.
Proof. intros H. unfold spread. by apply lookup_union_Some_l. Qed.

(** A key the spread value lacks keeps the literal's field. *)
Lemma spread_keeps o src k :
  own_props src !! k = None → spread o src !! k = o !! k.
Proof. intros H. unfold spread. by apply lookup_union_r. Qed.

(** *** Issue update *)

(** C10. With a client configured, an admitted update request with a JSON
    object as body makes one [issues.update] call whose arguments hold every
    key of the body with the body's value; so a body key named [owner],
    [repo] or [issue_number] replaces the value taken from the path, and
    where the body has no such key the path's [owner], [repo] and parsed
    [issue_number] are sent. *)
Theorem issue_update_body_overrides_path
    env now proc client kit req req' fields owner repo issue_number :
  octokit env client = Some kit →
  authenticate env now req = Next req' →
  body req = VObj fields →
  params req !! "owner" = Some owner →
  params req !! "repo" = Some repo →
  params req !! "issue_number" = Some issue_number →
  ∃ sent,
    (app env now proc client PATCH_github_repo_issue req).2
      = [Call issues_update [VObj sent]] ∧
    (∀ k v, fields !! k = Some v → sent !! k = Some v) ∧
    (fields !! "owner" = None → sent !! "owner" = Some (VStr owner)) ∧
    (fields !! "repo" = None → sent !! "repo" = Some (VStr repo)) ∧
    (fields !! "issue_number" = None →
       sent !! "issue_number" = Some (VNum (parseInt_of_string issue_number))).
Proof.
  intros Hkit Hauth Hbody Ho Hr Hi.
  destruct (authenticate_next _ _ _ _ Hauth) as [kind ->].
  unfold app. rewrite (guarded_next _ _ _ _ _ Hauth).
  unfold patch_github_repo_issue. rewrite Hkit. cbv zeta.
  change (body (tag kind req)) with (body req).
  change (param (tag kind req)) with (param req).
  unfold param. rewrite Hbody, Ho, Hr, Hi.
  cbn [from_option parseInt ToString fmap option_fmap option_map attempt].
  rewrite bind_ret, try_await.
  eexists. split_and!.
  - destruct (kit _); reflexivity.
  - intros k v Hk. by apply spread_overrides.
  - intros Hk. by rewrite spread_keeps.
  - intros Hk. by rewrite spread_keeps.
  - intros Hk. by rewrite spread_keeps.
Qed.

Lemma issue_update_body_overrides_path_witness :
  (octokit env_full client_ok = Some client_ok ∧
   authenticate env_full t0 retargeted = Next (tag "password" retargeted) ∧
   body retargeted = VObj retargeted_fields ∧
   params retargeted !! "owner" = Some "octo" ∧
   params retargeted !! "repo" = Some "hello" ∧
   params retargeted !! "issue_number" = Some "7") ∧
  ∃ sent,
    (app env_full t0 proc0 client_ok PATCH_github_repo_issue retargeted).2
      = [Call issues_update [VObj sent]] ∧
    (∀ k v, retargeted_fields !! k = Some v → sent !! k = Some v) ∧
    (retargeted_fields !! "owner" = None → sent !! "owner" = Some (VStr "octo")) ∧
    (retargeted_fields !! "repo" = None → sent !! "repo" = Some (VStr "hello")) ∧
    (retargeted_fields !! "issue_number" = None →
       sent !! "issue_number" = Some (VNum (parseInt_of_string "7"))).
Proof.
  split; [split_and!; reflexivity|].
  apply (issue_update_body_overrides_path env_full t0 proc0 client_ok client_ok retargeted
           (tag "password" retargeted) retargeted_fields "octo" "hello" "7"); reflexivity.
Defined.

(** The path says [octo/hello], issue 7; the body sends the update to issue
    99 of [octo/other]. *)
Example retargeted_update :
  (app env_full t0 proc0 client_ok PATCH_github_repo_issue retargeted).2 =
  [Call issues_update [VObj (obj [
     ("owner", VStr "octo");
     ("repo", VStr "other");
     ("issue_number", VNum (Int 99));
     ("state", VStr "closed")])]].
Proof. by vm_compute. Qed.

(** A body that names none of the three keeps the path's values. *)
Example plain_update :
  (app env_full t0 proc0 client_ok PATCH_github_repo_issue close_issue).2 =
  [Call issues_update [VObj (obj [
     ("owner", VStr "octo");
     ("repo", VStr "hello");
     ("issue_number", VNum (Int 7));
     ("state", VStr "closed")])]].
Proof. by vm_compute. Qed.

(** *** The generic proxy *)

(** C9, as stated, fails: an admitted GET for [/github/api/user] whose query
    has [method] and [url] parameters is forwarded as a DELETE to the
    query's url, not as a GET to [/user]. *)
Lemma proxy_query_redirects :
  method redirected = "GET" ∧ params redirected !! "0" = Some "user" ∧
  (app env_full t0 proc0 client_ok ALL_github_api redirected).2 =
    [Call octokit_request [VObj (obj [
       ("method", VStr "DELETE");
       ("url", VStr "/repos/octo/hello")])]]
  ∧ VStr "DELETE" ≠ VStr "GET" ∧ VStr "/repos/octo/hello" ≠ VStr "/user".
Proof. split_and!; [done | done | by vm_compute | done | done]. Qed.

(** C9, amended. With a client configured, every admitted request to the
    proxy, whatever its method and trailing path, makes exactly one generic
    call and none is refused.  The call's configuration carries every query
    parameter with the caller's value, except a parameter named [data] when
    the body is attached; [method] is the request method in upper case and
    [url] is "/" followed by the trailing path unless the query has a
    parameter of that name, which then takes its place; [data] is the body
    as received when the method is POST, PUT or PATCH and the body is
    truthy, and otherwise whatever the query supplies. *)
Theorem proxy_builds_one_request env now proc client kit req req' path :
  octokit env client = Some kit →
  authenticate env now req = Next req' →
  params req !! "0" = Some path →
  ∃ config,
    (app env now proc client ALL_github_api req).2
      = [Call octokit_request [VObj config]] ∧
    (∀ k v, query req !! k = Some v →
       ¬ (k = "data" ∧ attaches_body req = true) → config !! k = Some v) ∧
    (query req !! "method" = None →
       config !! "method" = Some (VStr (toUpperCase (method req)))) ∧
    (query req !! "url" = None → config !! "url" = Some (VStr ("/" +:+ path))) ∧
    (attaches_body req = true → config !! "data" = Some (body req)) ∧
    (attaches_body req = false → config !! "data" = query req !! "data").
Proof.
  intros Hkit Hauth Hpath.
  destruct (authenticate_next _ _ _ _ Hauth) as [kind ->].
  unfold app. rewrite (guarded_next _ _ _ _ _ Hauth).
  unfold all_github_api. rewrite Hkit, try_await.
  exists (requestConfig req). split; [destruct (kit _); reflexivity|].
  unfold requestConfig, param. rewrite Hpath. cbn [from_option template].
  fold (attaches_body req).
  destruct (attaches_body req) eqn:Hb.
  - split_and!.
    + intros k v Hk Hnot. rewrite lookup_insert_ne.
      * by apply spread_overrides.
      * intros <-. by apply Hnot.
    + intros Hm. rewrite lookup_insert_ne by done. by rewrite spread_keeps.
    + intros Hu. rewrite lookup_insert_ne by done. by rewrite spread_keeps.
    + intros _. by rewrite lookup_insert_eq.
    + done.
  - split_and!.
    + intros k v Hk _. by apply spread_overrides.
    + intros Hm. by rewrite spread_keeps.
    + intros Hu. by rewrite spread_keeps.
    + done.
    + intros _. unfold spread. change (own_props (VObj (query req))) with (query req).
      destruct (query req !! "data") as [d|] eqn:Hd.
      * by apply lookup_union_Some_l.
      * by rewrite lookup_union_r.
Qed.

Lemma proxy_builds_one_request_witness :
  (octokit env_full client_ok = Some client_ok ∧
   authenticate env_full t0 create_label = Next (tag "password" create_label) ∧
   params create_label !! "0" = Some "repos/octo/hello/labels") ∧
  ∃ config,
    (app env_full t0 proc0 client_ok ALL_github_api create_label).2
      = [Call octokit_request [VObj config]] ∧
    (∀ k v, query create_label !! k = Some v →
       ¬ (k = "data" ∧ attaches_body create_label = true) → config !! k = Some v) ∧
    (query create_label !! "method" = None →
       config !! "method" = Some (VStr (toUpperCase (method create_label)))) ∧
    (query create_label !! "url" = None →
       config !! "url" = Some (VStr ("/" +:+ "repos/octo/hello/labels"))) ∧
    (attaches_body create_label = true → config !! "data" = Some (body create_label)) ∧
    (attaches_body create_label = false → config !! "data" = query create_label !! "data").
Proof.
  split; [split_and!; reflexivity|].
  apply (proxy_builds_one_request env_full t0 proc0 client_ok client_ok create_label
           (tag "password" create_label) "repos/octo/hello/labels"); reflexivity.
Defined.

Example create_label_is_forwarded :
  (app env_full t0 proc0 client_ok ALL_github_api create_label).2 =
  [Call octokit_request [VObj (obj [
     ("method", VStr "POST");
     ("url", VStr "/repos/octo/hello/labels");
     ("per_page", VStr "5");
     ("data", new_label)])]].
Proof. by vm_compute. Qed.

(** The older proxy makes one call too: the route string is the method and
    the path, and the parameters are the query overlaid with the properties
    of the body, for every method. *)
Lemma older_proxy_merges_query_and_body env client kit req path :
  Netlify.octokit env client = Some kit →
  params req !! "0" = Some path →
  ∃ merged,
    (Netlify.all_github_api env client req).2 =
      [Call octokit_request [
         VStr (toUpperCase (toLowerCase (method req)) +:+ " /" +:+ path);
         VObj merged]] ∧
    (∀ k v, own_props (body req) !! k = Some v → merged !! k = Some v) ∧
    (∀ k, own_props (body req) !! k = None → merged !! k = query req !! k).
Proof.
  intros Hkit Hpath. unfold Netlify.all_github_api. rewrite Hkit.
  cbv zeta. rewrite try_await. unfold param. rewrite Hpath. cbn [from_option template].
  eexists. split_and!.
  - destruct (kit _); reflexivity.
  - intros k v Hk. by apply spread_overrides.
  - intros k Hk. rewrite spread_keeps by done. unfold spread.
    change (own_props (VObj (query req))) with (query req).
    by rewrite (right_id ∅ (∪)).
Qed.

(** * Further properties of [src/server.js] *)

(** ** The access gate, case by case *)

Lemma password_check (env : process_env) (supplied : value) :
  truthy supplied && strict_eq supplied (BACKEND_PASSWORD env) = true
  ↔ supplied = BACKEND_PASSWORD env.
Proof.
  split.
  - intros H. apply andb_true_iff in H as [_ H]. by apply strict_eq_true.
  - intros ->. destruct (BACKEND_PASSWORD_string env) as (s & -> & Hs).
    rewrite strict_eq_str. apply truthy_str in Hs. by rewrite Hs.
Qed.

Lemma key_check (env : process_env) (supplied : value) :
  truthy (API_KEY env) && truthy supplied && strict_eq supplied (API_KEY env) = true
  ↔ truthy (API_KEY env) = true ∧ supplied = API_KEY env.
Proof.
  split.
  - intros H. apply andb_true_iff in H as [H1 H2]. apply andb_true_iff in H1 as [H1 _].
    split; [done|]. by apply strict_eq_true.
  - intros [Ht ->]. rewrite Ht. unfold API_KEY, env_value in *.
    destruct (env_API_KEY env) as [k|]; [|discriminate].
    cbn [from_option]. by rewrite strict_eq_str.
Qed.

(** X1. The gate answers 401 exactly when the supplied password (header,
    else query) is not the configured one and no configured API key is
    matched by the supplied key (header, else query). *)
Theorem gate_rejects_exactly env now req :
  authenticate env now req = Respond (unauthorized now) ↔
  or (header req "x-password") (q req "password") ≠ BACKEND_PASSWORD env ∧
  ¬ (truthy (API_KEY env) = true ∧
     or (header req "x-api-key") (q req "api_key") = API_KEY env).
Proof.
  unfold authenticate.
  destruct (truthy _ && strict_eq _ (BACKEND_PASSWORD env)) eqn:E1.
  { apply password_check in E1. split; [discriminate|]. intros [H _]. done. }
  destruct (truthy (API_KEY env) && _ && _) eqn:E2.
  { apply key_check in E2. split; [discriminate|]. intros [_ H]. done. }
  split; [|reflexivity]. intros _. split.
  - intros H. apply (password_check env) in H. congruence.
  - intros H. apply (key_check env) in H. congruence.
Qed.

(** X2. When the supplied password is not the configured one, a configured
    API key matched by the supplied key (header, else query) admits the
    request: it is passed on with [authMethod] set to ["api_key"] and
    nothing else changed. *)
Theorem valid_api_key_admits env now req :
  or (header req "x-password") (q req "password") ≠ BACKEND_PASSWORD env →
  truthy (API_KEY env) = true →
  or (header req "x-api-key") (q req "api_key") = API_KEY env →
  ∃ req',
    authenticate env now req = Next req' ∧
    authMethod req' = Some "api_key" ∧
    method req' = method req ∧ headers req' = headers req ∧
    query req' = query req ∧ params req' = params req ∧ body req' = body req.
Proof.
  intros Hpw Ht Hk. exists (tag "api_key" req). split; [|apply tag_keeps].
  unfold authenticate.
  destruct (truthy _ && strict_eq _ (BACKEND_PASSWORD env)) eqn:E1.
  { apply password_check in E1. done. }
  replace (truthy (API_KEY env) && _ && _) with true; [done|].
  symmetry. by apply key_check.
Qed.

Lemma valid_api_key_admits_witness :
  (or (header key_in_query "x-password") (q key_in_query "password")
     ≠ BACKEND_PASSWORD env_full ∧
   truthy (API_KEY env_full) = true ∧
   or (header key_in_query "x-api-key") (q key_in_query "api_key") = API_KEY env_full) ∧
  ∃ req',
    authenticate env_full t0 key_in_query = Next req' ∧
    authMethod req' = Some "api_key" ∧
    method req' = method key_in_query ∧ headers req' = headers key_in_query ∧
    query req' = query key_in_query ∧ params req' = params key_in_query ∧
    body req' = body key_in_query.
Proof.
  assert (H : or (header key_in_query "x-password") (q key_in_query "password")
              ≠ BACKEND_PASSWORD env_full) by (vm_compute; discriminate).
  split; [split_and!; [exact H | reflexivity | reflexivity]|].
  apply (valid_api_key_admits env_full t0 key_in_query H); reflexivity.
Defined.

(** X3. A non-empty [x-password] header hides the [password] query
    parameter: if the header is wrong the request is rejected even when the
    query carries the right password (unless an API key admits it). *)
Theorem header_shadows_query_password env now req h :
  headers req !! "x-password" = Some h →
  h ≠ "" →
  VStr h ≠ BACKEND_PASSWORD env →
  ¬ (truthy (API_KEY env) = true ∧
     or (header req "x-api-key") (q req "api_key") = API_KEY env) →
  authenticate env now req = Respond (unauthorized now).
Proof.
  intros Hh Hne Hwrong Hkey.
  assert (Hs : or (header req "x-password") (q req "password") = VStr h).
  { unfold header. rewrite Hh. cbn [from_option]. unfold or.
    apply truthy_str in Hne. by rewrite Hne. }
  unfold authenticate. rewrite Hs.
  destruct (truthy (VStr h) && strict_eq (VStr h) (BACKEND_PASSWORD env)) eqn:E1.
  { apply password_check in E1. done. }
  destruct (truthy (API_KEY env) && _ && _) eqn:E2; [|reflexivity].
  apply key_check in E2. done.
Qed.

Lemma header_shadows_query_password_witness :
  (headers shadowed_password !! "x-password" = Some "guess" ∧
   "guess" ≠ "" ∧
   VStr "guess" ≠ BACKEND_PASSWORD env_full ∧
   ¬ (truthy (API_KEY env_full) = true ∧
      or (header shadowed_password "x-api-key") (q shadowed_password "api_key")
        = API_KEY env_full)) ∧
  q shadowed_password "password" = BACKEND_PASSWORD env_full ∧
  authenticate env_full t0 shadowed_password = Respond (unauthorized t0).
Proof.
  assert (H1 : "guess" ≠ "") by discriminate.
  assert (H2 : VStr "guess" ≠ BACKEND_PASSWORD env_full) by (vm_compute; discriminate).
  assert (H3 : ¬ (truthy (API_KEY env_full) = true ∧
                  or (header shadowed_password "x-api-key") (q shadowed_password "api_key")
                    = API_KEY env_full))
    by (intros [_ H]; vm_compute in H; discriminate).
  split; [split_and!; [reflexivity | exact H1 | exact H2 | exact H3]|].
  split; [reflexivity|].
  exact (header_shadows_query_password env_full t0 shadowed_password "guess"
           eq_refl H1 H2 H3).
Defined.

(** X4. A request the gate rejects gets the gate's response on every
    guarded route and no outbound call is made, whether or not a client is
    configured. *)
Theorem rejected_request_makes_no_call env now proc client rt req res :
  protected rt = true →
  authenticate env now req = Respond res →
  app env now proc client rt req = (res, []).
Proof.
  intros Hp Hauth.
  destruct rt; try discriminate Hp; unfold app, guarded; by rewrite Hauth.
Qed.

Lemma rejected_request_makes_no_call_witness :
  (protected ALL_github_api = true ∧
   authenticate env_full t0 wrong_password = Respond (unauthorized t0)) ∧
  app env_full t0 proc0 client_ok ALL_github_api wrong_password = (unauthorized t0, []).
Proof.
  split; [split; reflexivity|].
  apply (rejected_request_makes_no_call env_full t0 proc0 client_ok ALL_github_api
           wrong_password (unauthorized t0)); reflexivity.
Defined.

(** X5. When [BACKEND_PASSWORD] is unset or empty, the built-in default
    password admits: the request is passed on with [authMethod] set to
    ["password"] and nothing else changed. *)
Theorem default_password_admits env now req :
  env_BACKEND_PASSWORD env = None ∨ env_BACKEND_PASSWORD env = Some "" →
  or (header req "x-password") (q req "password") = VStr "change-this-secure-password" →
  ∃ req',
    authenticate env now req = Next req' ∧
    authMethod req' = Some "password" ∧
    method req' = method req ∧ headers req' = headers req ∧
    query req' = query req ∧ params req' = params req ∧ body req' = body req.
Proof.
  intros Henv Hpw. exists (tag "password" req). split; [|apply tag_keeps].
  unfold authenticate.
  replace (BACKEND_PASSWORD env) with (VStr "change-this-secure-password").
  - rewrite Hpw. reflexivity.
  - unfold BACKEND_PASSWORD. by destruct Henv as [-> | ->].
Qed.

Lemma default_password_admits_witness :
  (env_BACKEND_PASSWORD env_bare = None ∨ env_BACKEND_PASSWORD env_bare = Some "") ∧
  or (header default_password_request "x-password") (q default_password_request "password")
    = VStr "change-this-secure-password" ∧
  ∃ req',
    authenticate env_bare t0 default_password_request = Next req' ∧
    authMethod req' = Some "password" ∧
    method req' = method default_password_request ∧
    headers req' = headers default_password_request ∧
    query req' = query default_password_request ∧
    params req' = params default_password_request ∧
    body req' = body default_password_request.
Proof.
  split; [by left|]. split; [reflexivity|].
  apply (default_password_admits env_bare t0 default_password_request);
    [by left | reflexivity].
Defined.

(** X6. With no API key configured (unset or empty), the password is the
    only way in: an admitted request supplied the configured password and
    reaches the handler with [authMethod] set to ["password"]. *)
Theorem without_api_key_only_password_admits env now req req' :
  truthy (API_KEY env) = false →
  authenticate env now req = Next req' →
  authMethod req' = Some "password" ∧
  or (header req "x-password") (q req "password") = BACKEND_PASSWORD env.
Proof.
  intros Hk. unfold authenticate. rewrite Hk.
  destruct (truthy _ && strict_eq _ (BACKEND_PASSWORD env)) eqn:E1; [|discriminate].
  apply password_check in E1. intros [= <-]. done.
Qed.

Lemma without_api_key_only_password_admits_witness :
  (truthy (API_KEY env_password_only) = false ∧
   authenticate env_password_only t0 both_valid =
     Next (Request "GET" (headers both_valid) ∅ ∅ (VObj ∅) (Some "password"))) ∧
  authMethod (Request "GET" (headers both_valid) ∅ ∅ (VObj ∅) (Some "password"))
    = Some "password" ∧
  or (header both_valid "x-password") (q both_valid "password")
    = BACKEND_PASSWORD env_password_only.
Proof.
  split; [split; reflexivity|].
  apply (without_api_key_only_password_admits env_password_only t0 both_valid
           (Request "GET" (headers both_valid) ∅ ∅ (VObj ∅) (Some "password")));
    reflexivity.
Defined.

(** ** The forwarder, route by route *)

Lemma try_await_calls kit c (f : octokit_response → Async response) h :
  (∀ r, (f r).2 = []) →
  (try_catch (r ← await kit c; f r) h).2 = [c].
Proof.
  intros Hf. rewrite try_await. destruct (kit c) as [r|e]; [|done].
  cbn [snd]. by rewrite Hf.
Qed.

(** The calls of the two handlers that validate before they call. *)
Lemma post_issue_calls env now client kit req :
  octokit env client = Some kit →
  (post_github_repo_issues env now client req).2 = [] ∨
  ∃ c, (post_github_repo_issues env now client req).2 = [c].
Proof.
  intros Hkit. unfold post_github_repo_issues. rewrite Hkit.
  destruct (get_prop (body req) "title") as [t|] eqn:Ht.
  - destruct (get_prop_defined _ _ _ "body" Ht) as [b Hb].
    destruct (get_prop_defined _ _ _ "labels" Ht) as [l Hl].
    destruct (get_prop_defined _ _ _ "assignees" Ht) as [a Ha].
    destruct (get_prop_defined _ _ _ "milestone" Ht) as [m Hm].
    rewrite (destructure_some _ _ _ _ Ht), (destructure_some _ _ _ _ Hb),
      (destructure_some _ _ _ _ Hl), (destructure_some _ _ _ _ Ha),
      (destructure_some _ _ _ _ Hm), !bind_ret.
    destruct (truthy t); cbn [negb]; [|by left].
    right. eexists. by apply try_await_calls.
  - left. unfold destructure. by rewrite Ht.
Qed.

(** X7. No request, on any route and under any configuration, causes more
    than one outbound call. *)
Theorem at_most_one_call env now proc client rt req :
  (List.length (app env now proc client rt req).2 ≤ 1)%nat.
Proof.
  destruct rt; unfold app; try (cbn; lia);
    unfold guarded; (destruct (authenticate env now req) as [req'|res]; [|cbn; lia]);
    (destruct (octokit env client) as [kit|] eqn:Hkit;
     [|unfold_handlers; rewrite Hkit; cbn; lia]).
  all: try (unfold_handlers; rewrite Hkit; check_term; read_numbers;
            first [rewrite try_await_calls by silent; cbn; lia | cbn; lia]).
  destruct (post_issue_calls env now client kit req' Hkit) as [-> | [c ->]]; cbn; lia.
Qed.

Lemma page_sent (read : number) :
  ∃ p, num_or read (Int 1) = Int p ∧ p ≠ 0.
Proof.
  unfold num_or. destruct read as [|n]; cbn.
  - exists 1. done.
  - destruct (Z.eqb_spec n 0); cbn; [by exists 1|by exists n].
Qed.

Lemma sent_per_page_nonzero (read : number) : sent_per_page read ≠ 0.
Proof.
  unfold sent_per_page. destruct read as [|n]; [done|].
  destruct (Z.eqb_spec n 0); lia.
Qed.

(** A paginated route calls only after [parseInt] has read both numbers,
    and the call carries the page size and the page computed from them. *)
Lemma paginated_call env now proc client rt req c :
  paginated rt = true →
  c ∈ (app env now proc client rt req).2 →
  ∃ sent read page,
    parseInt (q req "per_page") = Some read ∧
    parseInt (q req "page") = Some page ∧
    args c = [VObj sent] ∧
    sent !! "per_page" = Some (VNum (Int (sent_per_page read))) ∧
    sent !! "page" = Some (VNum (num_or page (Int 1))).
Proof.
  intros Hp.
  destruct rt; try discriminate Hp; unfold app, guarded;
    (destruct (authenticate env now req) as [req'|res] eqn:Hauth; [|no_call]);
    (destruct (authenticate_next _ _ _ _ Hauth) as [kind ->]);
    (destruct (octokit env client) as [kit|] eqn:Hkit;
     [|unfold_handlers; rewrite Hkit; no_call]);
    unfold_handlers; rewrite Hkit; check_term; read_numbers; no_call;
    rewrite try_await_calls, per_page_sent by silent;
    intros Hin; apply list_elem_of_singleton in Hin; subst c;
    match goal with
    | E1 : parseInt (q _ "per_page") = Some ?a, E2 : parseInt (q _ "page") = Some ?b |- _ =>
        eexists _, a, b; split_and!; [exact E1 | exact E2 | reflexivity..]
    end.
Qed.

(** X8. On each of the seven paginated routes, any outbound call asks for a
    page size that is at most 100 and not zero, and for a page that is not
    zero, whatever the query holds. *)
Theorem paginated_calls_are_capped env now proc client rt req c :
  paginated rt = true →
  c ∈ (app env now proc client rt req).2 →
  ∃ sent n p,
    args c = [VObj sent] ∧
    sent !! "per_page" = Some (VNum (Int n)) ∧ n ≤ 100 ∧ n ≠ 0 ∧
    sent !! "page" = Some (VNum (Int p)) ∧ p ≠ 0.
Proof.
  intros Hp Hin.
  destruct (paginated_call env now proc client rt req c Hp Hin)
    as (sent & read & page & _ & _ & Ha & Hpp & Hpg).
  destruct (page_sent page) as (p & Hpe & Hp0). rewrite Hpe in Hpg.
  exists sent, (sent_per_page read), p.
  split_and!; try done; [apply sent_per_page_le | apply sent_per_page_nonzero].
Qed.

(** X9. The page size is capped from above only: a supplied value that
    [parseInt] reads as a non-zero integer of at most 100, negative ones
    included, is sent as it is. *)
Theorem small_per_page_is_sent_as_is env now proc client rt req c n :
  paginated rt = true →
  c ∈ (app env now proc client rt req).2 →
  parseInt (q req "per_page") = Some (Int n) → n ≠ 0 → n ≤ 100 →
  ∃ sent, args c = [VObj sent] ∧ sent !! "per_page" = Some (VNum (Int n)).
Proof.
  intros Hp Hin Hn Hn0 Hle.
  destruct (paginated_call env now proc client rt req c Hp Hin)
    as (sent & read & page & Hread & _ & Ha & Hpp & _).
  rewrite Hn in Hread. injection Hread as <-.
  exists sent. split; [done|]. rewrite Hpp. unfold sent_per_page.
  destruct (Z.eqb_spec n 0); [done|]. do 3 f_equal. lia.
Qed.

Lemma paginated_calls_are_capped_witness :
  (paginated GET_github_search_repos = true ∧
   search_call 100 ∈ (app env_full t0 proc0 client_ok GET_github_search_repos (search "500")).2) ∧
  ∃ sent n p,
    args (search_call 100) = [VObj sent] ∧
    sent !! "per_page" = Some (VNum (Int n)) ∧ n ≤ 100 ∧ n ≠ 0 ∧
    sent !! "page" = Some (VNum (Int p)) ∧ p ≠ 0.
Proof.
  assert (Hin : search_call 100
                ∈ (app env_full t0 proc0 client_ok GET_github_search_repos (search "500")).2)
    by (apply list_elem_of_singleton; by vm_compute).
  split; [split; [reflexivity | exact Hin]|].
  exact (paginated_calls_are_capped env_full t0 proc0 client_ok GET_github_search_repos
           (search "500") (search_call 100) eq_refl Hin).
Defined.

Lemma small_per_page_is_sent_as_is_witness :
  (paginated GET_github_search_repos = true ∧
   search_call (-5) ∈ (app env_full t0 proc0 client_ok GET_github_search_repos (search "-5")).2 ∧
   parseInt (q (search "-5") "per_page") = Some (Int (-5)) ∧ -5 ≠ 0 ∧ -5 ≤ 100) ∧
  ∃ sent, args (search_call (-5)) = [VObj sent] ∧
          sent !! "per_page" = Some (VNum (Int (-5))).
Proof.
  assert (Hin : search_call (-5)
                ∈ (app env_full t0 proc0 client_ok GET_github_search_repos (search "-5")).2)
    by (apply list_elem_of_singleton; by vm_compute).
  assert (H0 : -5 ≠ 0) by lia.
  assert (Hle : -5 ≤ 100) by lia.
  split; [split_and!; [reflexivity | exact Hin | reflexivity | exact H0 | exact Hle]|].
  exact (small_per_page_is_sent_as_is env_full t0 proc0 client_ok GET_github_search_repos
           (search "-5") (search_call (-5)) (-5) eq_refl Hin eq_refl H0 Hle).
Defined.

Lemma prop_undefined_throws v k (f : value → Async response) h :
  get_prop v k = None →
  ∃ e, err_status e = None ∧ (try_catch (prop v k ≫= f) h).1 = h e.
Proof. intros H. unfold prop. rewrite H. eexists (JsError None _). split; reflexivity. Qed.

(** X10. On a list route, a call that succeeds with no payload ([undefined]
    or [null]) is still answered as a failure: reading [data.length] throws,
    so the response is 500 "GitHub API Error" although the call went through. *)
Theorem list_route_without_payload_is_500 env now proc client kit rt req req' c r :
  lists rt = true →
  octokit env client = Some kit →
  authenticate env now req = Next req' →
  c ∈ (app env now proc client rt req).2 →
  kit c = Fulfilled r →
  data r = VUndefined ∨ data r = VNull →
  (app env now proc client rt req).2 = [c] ∧
  status (app env now proc client rt req).1 = 500 ∧
  ∃ envelope,
    json (app env now proc client rt req).1 = VObj envelope ∧
    envelope !! "error" = Some (VStr "GitHub API Error") ∧
    envelope !! "data" = None.
Proof.
  intros Hl Hkit Hauth Hin Hk Hd.
  assert (Hlen : get_prop (data r) "length" = None) by (by destruct Hd as [-> | ->]).
  revert Hin.
  destruct rt; try discriminate Hl; unfold app;
    rewrite (guarded_next _ _ _ _ _ Hauth); unfold_handlers; rewrite Hkit;
    read_numbers; no_call; intros Hin;
    (rewrite (try_await_fulfilled _ _ _ _ c r); [|silent|done..]);
    match goal with
    | |- context [try_catch (prop _ _ ≫= ?f) ?h] =>
        destruct (prop_undefined_throws (data r) "length" f h Hlen) as (e & He & ->)
    end;
    (split_and!; [reflexivity | cbn; unfold status_or; by rewrite He |];
     eexists; split_and!; reflexivity).
Qed.

Lemma list_route_without_payload_is_500_witness :
  (lists GET_github_repo_issues = true ∧
   octokit env_full client_no_content = Some client_no_content ∧
   authenticate env_full t0 list_issues = Next (tag "password" list_issues) ∧
   list_issues_call
     ∈ (app env_full t0 proc0 client_no_content GET_github_repo_issues list_issues).2 ∧
   client_no_content list_issues_call = Fulfilled (OctokitResponse VUndefined 204) ∧
   (data (OctokitResponse VUndefined 204) = VUndefined ∨
    data (OctokitResponse VUndefined 204) = VNull)) ∧
  (app env_full t0 proc0 client_no_content GET_github_repo_issues list_issues).2
    = [list_issues_call] ∧
  status (app env_full t0 proc0 client_no_content GET_github_repo_issues list_issues).1 = 500 ∧
  ∃ envelope,
    json (app env_full t0 proc0 client_no_content GET_github_repo_issues list_issues).1
      = VObj envelope ∧
    envelope !! "error" = Some (VStr "GitHub API Error") ∧
    envelope !! "data" = None.
Proof.
  assert (Hin : list_issues_call
     ∈ (app env_full t0 proc0 client_no_content GET_github_repo_issues list_issues).2)
    by (apply list_elem_of_singleton; by vm_compute).
  split; [split_and!; first [reflexivity | exact Hin | by left]|].
  apply (list_route_without_payload_is_500 env_full t0 proc0 client_no_content
           client_no_content GET_github_repo_issues list_issues
           (tag "password" list_issues) list_issues_call (OctokitResponse VUndefined 204));
    first [reflexivity | exact Hin | by left].
Defined.

Lemma get_prop_present v k :
  v ≠ VUndefined → v ≠ VNull → ∃ x, get_prop v k = Some x.
Proof. intros H1 H2. destruct v; try done; cbn; eauto. Qed.

Lemma prop_present_runs v k x (f : value → Async response) h :
  get_prop v k = Some x →
  (try_catch (prop v k ≫= f) h).1 = (try_catch (f x) h).1.
Proof. intros H. unfold prop. by rewrite H, bind_ret. Qed.

(** X11. On every guarded route, when the call made succeeds (with a payload
    that is not [undefined] or [null] on the list routes), the response is
    201 for issue creation and 200 otherwise, and its envelope carries
    [success: true], the upstream payload as received and the timestamp; the
    proxy also reports the upstream status.  The call is the only one. *)
Theorem success_envelope_passes_payload env now proc client kit rt req req' c r :
  protected rt = true →
  octokit env client = Some kit →
  authenticate env now req = Next req' →
  c ∈ (app env now proc client rt req).2 →
  kit c = Fulfilled r →
  (lists rt = true → data r ≠ VUndefined ∧ data r ≠ VNull) →
  (app env now proc client rt req).2 = [c] ∧
  status (app env now proc client rt req).1 = success_status rt ∧
  ∃ envelope,
    json (app env now proc client rt req).1 = VObj envelope ∧
    envelope !! "success" = Some (VBool true) ∧
    envelope !! "data" = Some (data r) ∧
    envelope !! "timestamp" = Some (VStr now) ∧
    (rt = ALL_github_api → envelope !! "status" = Some (VNum (Int (res_status r)))).
Proof.
  intros Hp Hkit Hauth Hin Hk Hdata. revert Hin.
  destruct rt; try discriminate Hp; unfold app;
    rewrite (guarded_next _ _ _ _ _ Hauth); unfold_handlers; rewrite Hkit;
    check_term; read_numbers; no_call; intros Hin.
  (* routes that answer straight after the call *)
  all: try (rewrite (try_await_fulfilled _ _ _ _ c r); [|intros ?; reflexivity|done..];
            split_and!; [reflexivity..|]; eexists; split_and!; (reflexivity || discriminate)).
  (* list routes read [data.length] first *)
  all: try (rewrite (try_await_fulfilled _ _ _ _ c r); [|silent|done..];
            destruct (Hdata eq_refl) as [Hu Hn];
            destruct (get_prop_present (data r) "length" Hu Hn) as [x Hx];
            rewrite (prop_present_runs _ _ _ _ _ Hx), ?bind_ret;
            split_and!; [reflexivity..|]; eexists; split_and!;
            (reflexivity || discriminate)).
  (* issue creation *)
  destruct (get_prop (body req') "title") as [t|] eqn:Ht.
  - destruct (get_prop_defined _ _ _ "body" Ht) as [b Hb].
    destruct (get_prop_defined _ _ _ "labels" Ht) as [l Hl].
    destruct (get_prop_defined _ _ _ "assignees" Ht) as [a Ha].
    destruct (get_prop_defined _ _ _ "milestone" Ht) as [m Hm].
    rewrite (destructure_some _ _ _ _ Ht), (destructure_some _ _ _ _ Hb),
      (destructure_some _ _ _ _ Hl), (destructure_some _ _ _ _ Ha),
      (destructure_some _ _ _ _ Hm), !bind_ret in *.
    destruct (truthy t); cbn [negb] in *; [|by apply elem_of_nil in Hin].
    rewrite (try_await_fulfilled _ _ _ _ c r); [|intros ?; reflexivity|done..].
    split_and!; [reflexivity..|]. eexists; split_and!; (reflexivity || discriminate).
  - unfold destructure in Hin. rewrite Ht in Hin. by apply elem_of_nil in Hin.
Qed.

Lemma success_envelope_passes_payload_witness :
  (protected ALL_github_api = true ∧
   octokit env_full client_ok = Some client_ok ∧
   authenticate env_full t0 create_label = Next (tag "password" create_label) ∧
   create_label_call ∈ (app env_full t0 proc0 client_ok ALL_github_api create_label).2 ∧
   client_ok create_label_call = Fulfilled (OctokitResponse (VArr two_items) 200) ∧
   (lists ALL_github_api = true →
    data (OctokitResponse (VArr two_items) 200) ≠ VUndefined ∧
    data (OctokitResponse (VArr two_items) 200) ≠ VNull)) ∧
  (app env_full t0 proc0 client_ok ALL_github_api create_label).2 = [create_label_call] ∧
  status (app env_full t0 proc0 client_ok ALL_github_api create_label).1
    = success_status ALL_github_api ∧
  ∃ envelope,
    json (app env_full t0 proc0 client_ok ALL_github_api create_label).1 = VObj envelope ∧
    envelope !! "success" = Some (VBool true) ∧
    envelope !! "data" = Some (data (OctokitResponse (VArr two_items) 200)) ∧
    envelope !! "timestamp" = Some (VStr t0) ∧
    (ALL_github_api = ALL_github_api →
     envelope !! "status" = Some (VNum (Int (res_status (OctokitResponse (VArr two_items) 200))))).
Proof.
  assert (Hin : create_label_call
                ∈ (app env_full t0 proc0 client_ok ALL_github_api create_label).2)
    by (apply list_elem_of_singleton; by vm_compute).
  assert (Hd : lists ALL_github_api = true →
               data (OctokitResponse (VArr two_items) 200) ≠ VUndefined ∧
               data (OctokitResponse (VArr two_items) 200) ≠ VNull)
    by (intros _; split; discriminate).
  split; [split_and!; first [reflexivity | exact Hin | exact Hd]|].
  exact (success_envelope_passes_payload env_full t0 proc0 client_ok client_ok
           ALL_github_api create_label (tag "password" create_label) create_label_call
           (OctokitResponse (VArr two_items) 200) eq_refl eq_refl eq_refl Hin eq_refl Hd).
Defined.

(** X12. Issue creation refuses every falsy title, not only a missing or
    empty one: with a client configured, an admitted request whose body
    (object or array) yields a title that is [null], [false], [0], [NaN],
    [undefined] or the empty string is answered 400 with no outbound call. *)
Theorem falsy_title_is_refused env now proc client kit req req' title :
  octokit env client = Some kit →
  authenticate env now req = Next req' →
  get_prop (body req) "title" = Some title →
  truthy title = false →
  app env now proc client POST_github_repo_issues req
    = (validation_error now "Title is required", []).
Proof.
  intros Hkit Hauth Ht Hf.
  destruct (authenticate_next _ _ _ _ Hauth) as [kind ->].
  unfold app. rewrite (guarded_next _ _ _ _ _ Hauth).
  by apply (post_issue_falsy_title env now client kit _ title).
Qed.

Lemma falsy_title_is_refused_witness :
  (octokit env_full client_ok = Some client_ok ∧
   authenticate env_full t0 null_title_issue = Next (tag "password" null_title_issue) ∧
   get_prop (body null_title_issue) "title" = Some VNull ∧
   truthy VNull = false) ∧
  app env_full t0 proc0 client_ok POST_github_repo_issues null_title_issue
    = (validation_error t0 "Title is required", []).
Proof.
  split; [split_and!; reflexivity|].
  apply (falsy_title_is_refused env_full t0 proc0 client_ok client_ok null_title_issue
           (tag "password" null_title_issue) VNull); reflexivity.
Defined.

(** ** The error handler *)

(** X13. An error that is not a ValidationError and carries no status (or
    status 0) is answered 500 with a fixed body: nothing of the error, its
    message included, reaches the client, so two such errors are answered
    alike. *)
Theorem errorHandler_hides_unexpected_errors now e1 e2 :
  error_name e1 ≠ "ValidationError" →
  error_name e2 ≠ "ValidationError" →
  error_status e1 = None ∨ error_status e1 = Some 0 →
  error_status e2 = None ∨ error_status e2 = Some 0 →
  errorHandler now e1 = errorHandler now e2 ∧
  status (errorHandler now e1) = 500 ∧
  json (errorHandler now e1) = VObj (obj [
    ("error", VStr "Internal Server Error");
    ("message", VStr "Something went wrong on our end");
    ("timestamp", VStr now)]).
Proof.
  intros Hn1 Hn2 Hs1 Hs2. unfold errorHandler.
  rewrite !bool_decide_eq_false_2 by done.
  destruct Hs1 as [-> | ->], Hs2 as [-> | ->]; done.
Qed.

Lemma errorHandler_hides_unexpected_errors_witness :
  (error_name (crash "secret path /srv/app") ≠ "ValidationError" ∧
   error_name (crash "") ≠ "ValidationError" ∧
   (error_status (crash "secret path /srv/app") = None ∨
    error_status (crash "secret path /srv/app") = Some 0) ∧
   (error_status (crash "") = None ∨ error_status (crash "") = Some 0)) ∧
  errorHandler t0 (crash "secret path /srv/app") = errorHandler t0 (crash "") ∧
  status (errorHandler t0 (crash "secret path /srv/app")) = 500 ∧
  json (errorHandler t0 (crash "secret path /srv/app")) = VObj (obj [
    ("error", VStr "Internal Server Error");
    ("message", VStr "Something went wrong on our end");
    ("timestamp", VStr t0)]).
Proof.
  assert (H1 : error_name (crash "secret path /srv/app") ≠ "ValidationError") by discriminate.
  assert (H2 : error_name (crash "") ≠ "ValidationError") by discriminate.
  split; [split_and!; [exact H1 | exact H2 | by left | by left]|].
  exact (errorHandler_hides_unexpected_errors t0 (crash "secret path /srv/app") (crash "")
           H1 H2 (or_introl eq_refl) (or_introl eq_refl)).
Defined.

(** ** The CORS allow-list *)

Lemma split_nonempty c s : split c s ≠ [].
Proof.
  destruct s as [|a s]; cbn; [done|].
  destruct (bool_decide (a = c)); [done|]. by destruct (split c s).
Qed.

Lemma concat_split c s : String.concat (String c EmptyString) (split c s) = s.
Proof.
  induction s as [|a s IH]; [done|]. cbn [split].
  destruct (bool_decide (a = c)) eqn:E.
  - apply bool_decide_eq_true in E. subst a.
    destruct (split c s) as [|p l] eqn:Es; [by apply split_nonempty in Es|].
    cbn in *. by rewrite IH.
  - destruct (split c s) as [|p l] eqn:Es; [by apply split_nonempty in Es|].
    destruct l; cbn in *; by rewrite <- IH.
Qed.

Lemma split_pieces c s : Forall (λ piece, has_char c piece = false) (split c s).
Proof.
  induction s as [|a s IH]; cbn [split].
  - by repeat constructor.
  - destruct (bool_decide (a = c)) eqn:E.
    + by constructor.
    + destruct (split c s) as [|p l]; [by repeat (constructor; cbn; rewrite ?E)|].
      inversion IH; subst. constructor; [|done]. cbn. by rewrite E.
Qed.

(** X14. A non-empty [ALLOWED_ORIGINS] becomes the list of its
    comma-separated pieces: joining them with commas gives the variable
    back, no piece holds a comma, and nothing is trimmed or dropped. *)
Theorem allowed_origins_round_trip (s : string) :
  s ≠ "" →
  ∃ origins,
    cors_origin (Some s) = VArr (VStr <$> origins) ∧
    String.concat "," origins = s ∧
    Forall (λ origin, has_char "," origin = false) origins.
Proof.
  intros Hs. exists (split "," s). split_and!.
  - unfold cors_origin. cbn [env_value from_option default].
    apply truthy_str in Hs. by rewrite Hs.
  - apply concat_split.
  - apply split_pieces.
Qed.

Lemma allowed_origins_round_trip_witness :
  "https://a.example, https://b.example" ≠ "" ∧
  ∃ origins,
    cors_origin (Some "https://a.example, https://b.example") = VArr (VStr <$> origins) ∧
    String.concat "," origins = "https://a.example, https://b.example" ∧
    Forall (λ origin, has_char "," origin = false) origins.
Proof.
  assert (H : "https://a.example, https://b.example" ≠ "") by discriminate.
  split; [exact H|].
  exact (allowed_origins_round_trip "https://a.example, https://b.example" H).
Defined.

(** The space after the comma stays in the second origin; an unset or empty
    variable allows every origin. *)
Example origins_are_not_trimmed :
  cors_origin (Some "https://a.example, https://b.example")
  = VArr [VStr "https://a.example"; VStr " https://b.example"].
Proof. reflexivity. Qed.
Example no_origins_means_all :
  cors_origin None = VStr "*" ∧ cors_origin (Some "") = VStr "*".
Proof. split; reflexivity. Qed.

(** * Properties of the older function *)

Ltac unfold_older_handlers :=
  unfold Netlify.get_github_user, Netlify.get_github_repos, Netlify.get_github_repo,
    Netlify.get_github_repo_issues, Netlify.post_github_repo_issues,
    Netlify.all_github_api.

Lemma older_password_string (env : process_env) :
  ∃ s, Netlify.BACKEND_PASSWORD env = VStr s ∧ s ≠ "".
Proof.
  unfold Netlify.BACKEND_PASSWORD, env_value.
  destruct (env_BACKEND_PASSWORD env) as [s|]; cbn [from_option].
  - destruct (or_cases (VStr s) (VStr "your-secure-password")) as [[Ht ->]|[_ ->]].
    + exists s. split; [done|]. by apply truthy_str.
    + eexists. split; [done|]. discriminate.
  - eexists. split; [reflexivity|]. discriminate.
Qed.

(** X15. The older gate knows the password only: it passes the request on,
    unchanged, exactly when the supplied password (header, else query) is
    the configured one, and otherwise answers one fixed 401; an API key
    plays no part. *)
Theorem older_gate_is_password_only env req :
  (Netlify.authenticate env req = Next req ↔
   or (header req "x-password") (q req "password") = Netlify.BACKEND_PASSWORD env) ∧
  (Netlify.authenticate env req = Next req ∨
   Netlify.authenticate env req =
     Respond (Response 401 (VObj (obj [("error", VStr "Unauthorized: Invalid password")])))).
Proof.
  unfold Netlify.authenticate.
  destruct (older_password_string env) as (s & Hs & Hne).
  destruct (negb (truthy _) || negb (strict_eq _ (Netlify.BACKEND_PASSWORD env))) eqn:E.
  - split; [|by right]. split; [discriminate|]. intros H. rewrite H, Hs in E.
    rewrite strict_eq_str in E. apply truthy_str in Hne. by rewrite Hne in E.
  - split; [|by left]. split; [|done]. intros _.
    apply orb_false_iff in E as [_ E]. apply negb_false_iff in E.
    by apply strict_eq_true.
Qed.

Lemma older_guarded_next env (h : handler) req :
  Netlify.authenticate env req = Next req → Netlify.guarded env h req = h req.
Proof. intros H. unfold Netlify.guarded. by rewrite H. Qed.

(** The calls of the older issue creation. *)
Lemma older_post_issue_shape env client kit req :
  Netlify.octokit env client = Some kit →
  (Netlify.post_github_repo_issues env client req).2 = [] ∨
  ∃ t b l,
    get_prop (body req) "title" = Some t ∧ truthy t = true ∧
    get_prop (body req) "body" = Some b ∧ get_prop (body req) "labels" = Some l ∧
    Netlify.post_github_repo_issues env client req =
      try_catch
        (r ← await kit (Call issues_create [VObj (obj [
           ("owner", param req "owner");
           ("repo", param req "repo");
           ("title", t);
           ("body", b);
           ("labels", l)])]);
         mret (Response 200 (data r)))
        Netlify.failed.
Proof.
  intros Hkit. unfold Netlify.post_github_repo_issues. rewrite Hkit.
  destruct (get_prop (body req) "title") as [t|] eqn:Ht.
  - destruct (get_prop_defined _ _ _ "body" Ht) as [b Hb].
    destruct (get_prop_defined _ _ _ "labels" Ht) as [l Hl].
    rewrite (destructure_some _ _ _ _ Ht), (destructure_some _ _ _ _ Hb),
      (destructure_some _ _ _ _ Hl), !bind_ret.
    destruct (truthy t) eqn:Htr; cbn [negb]; [|by left].
    right. exists t, b, l. by rewrite Hb, Hl.
  - left. unfold destructure. by rewrite Ht.
Qed.

(** X16. In the older function every failed call is answered 500 with the
    upstream message as the only field, whatever status the upstream
    reported; the failed call is the only call. *)
Theorem older_failures_are_always_500 env client now kit rt req c e :
  Netlify.protected rt = true →
  Netlify.octokit env client = Some kit →
  Netlify.authenticate env req = Next req →
  c ∈ (Netlify.app env client now rt req).2 →
  kit c = Rejected e →
  Netlify.app env client now rt req =
    (Response 500 (VObj (obj [("error", VStr (err_message e))])), [c]).
Proof.
  intros Hp Hkit Hauth.
  destruct rt; try discriminate Hp; unfold Netlify.app;
    rewrite (older_guarded_next _ _ _ Hauth).
  all: try (unfold_older_handlers; rewrite Hkit; intros Hin Hk;
            apply (try_await_rejected _ _ _ Netlify.failed); [|done..];
            intros r; reflexivity).
  destruct (older_post_issue_shape env client kit req Hkit)
    as [-> | (t & b & l & _ & _ & _ & _ & ->)]; intros Hin Hk.
  - by apply elem_of_nil in Hin.
  - apply (try_await_rejected _ _ _ Netlify.failed); [|done..]. intros r; reflexivity.
Qed.

(** X17. In the older function every successful call is answered 200 with
    the upstream payload itself as the body, with no envelope around it. *)
Theorem older_success_is_raw_payload env client now kit rt req c r :
  Netlify.protected rt = true →
  Netlify.octokit env client = Some kit →
  Netlify.authenticate env req = Next req →
  c ∈ (Netlify.app env client now rt req).2 →
  kit c = Fulfilled r →
  Netlify.app env client now rt req = (Response 200 (data r), [c]).
Proof.
  intros Hp Hkit Hauth.
  destruct rt; try discriminate Hp; unfold Netlify.app;
    rewrite (older_guarded_next _ _ _ Hauth).
  all: try (unfold_older_handlers; rewrite Hkit; intros Hin Hk;
            rewrite (try_await_fulfilled _ _ _ _ c r); [|intros ?; reflexivity|done..];
            reflexivity).
  destruct (older_post_issue_shape env client kit req Hkit)
    as [-> | (t & b & l & _ & _ & _ & _ & ->)]; intros Hin Hk.
  - by apply elem_of_nil in Hin.
  - rewrite (try_await_fulfilled _ _ _ _ c r); [|intros ?; reflexivity|done..].
    reflexivity.
Qed.

(** X18. The older function does not cap the page size: on its two
    paginated routes a truthy [per_page] of the query is sent as the caller
    wrote it, and 30 is sent otherwise. *)
Theorem older_per_page_is_not_capped env client now rt req c :
  Netlify.paginated rt = true →
  c ∈ (Netlify.app env client now rt req).2 →
  ∃ sent,
    args c = [VObj sent] ∧
    sent !! "per_page" =
      Some (if truthy (q req "per_page") then q req "per_page" else VNum (Int 30)).
Proof.
  intros Hp.
  destruct rt; try discriminate Hp; unfold Netlify.app, Netlify.guarded;
    (destruct (Netlify.authenticate env req) as [req'|res] eqn:Hauth;
     [|intros Hin; by apply elem_of_nil in Hin]);
    (assert (req' = req) as ->
       by (unfold Netlify.authenticate in Hauth; destruct (_ || _); congruence));
    (destruct (Netlify.octokit env client) as [kit|] eqn:Hkit;
     [|unfold_older_handlers; rewrite Hkit; intros Hin; by apply elem_of_nil in Hin]);
    unfold_older_handlers; rewrite Hkit, try_await_calls by (intros r; reflexivity);
    intros Hin; apply list_elem_of_singleton in Hin; subst c;
    eexists; split; reflexivity.
Qed.

(** X19. The older issue creation forwards the title, body and labels of the
    body and nothing else of it: [assignees] and [milestone] are not sent. *)
Theorem older_issue_creation_drops_fields env client now kit req fields :
  Netlify.octokit env client = Some kit →
  Netlify.authenticate env req = Next req →
  body req = VObj fields →
  truthy (get fields "title") = true →
  ∃ sent,
    (Netlify.app env client now Netlify.POST_github_repo_issues req).2
      = [Call issues_create [VObj sent]] ∧
    sent !! "title" = Some (get fields "title") ∧
    sent !! "body" = Some (get fields "body") ∧
    sent !! "labels" = Some (get fields "labels") ∧
    sent !! "assignees" = None ∧
    sent !! "milestone" = None.
Proof.
  intros Hkit Hauth Hb Ht. unfold Netlify.app.
  rewrite (older_guarded_next _ _ _ Hauth).
  unfold Netlify.post_github_repo_issues. rewrite Hkit, Hb.
  rewrite !(destructure_some _ (VObj fields) _ _ eq_refl), !bind_ret.
  change (own_props (VObj fields)) with fields. rewrite Ht. cbn [negb].
  rewrite try_await_calls by (intros r; reflexivity).
  eexists. split_and!; reflexivity.
Qed.

Lemma older_failures_are_always_500_witness :
  (Netlify.protected Netlify.GET_github_repo = true ∧
   Netlify.octokit env_full client_404 = Some client_404 ∧
   Netlify.authenticate env_full read_repo = Next read_repo ∧
   read_repo_call ∈ (Netlify.app env_full client_404 t0 Netlify.GET_github_repo read_repo).2 ∧
   client_404 read_repo_call = Rejected not_found) ∧
  Netlify.app env_full client_404 t0 Netlify.GET_github_repo read_repo =
    (Response 500 (VObj (obj [("error", VStr (err_message not_found))])), [read_repo_call]).
Proof.
  assert (Hin : read_repo_call
     ∈ (Netlify.app env_full client_404 t0 Netlify.GET_github_repo read_repo).2)
    by (apply list_elem_of_singleton; by vm_compute).
  split; [split_and!; first [reflexivity | exact Hin]|].
  exact (older_failures_are_always_500 env_full client_404 t0 client_404
           Netlify.GET_github_repo read_repo read_repo_call not_found
           eq_refl eq_refl eq_refl Hin eq_refl).
Defined.

Lemma older_success_is_raw_payload_witness :
  (Netlify.protected Netlify.GET_github_repos = true ∧
   Netlify.octokit env_full client_ok = Some client_ok ∧
   Netlify.authenticate env_full many_repos = Next many_repos ∧
   many_repos_call ∈ (Netlify.app env_full client_ok t0 Netlify.GET_github_repos many_repos).2 ∧
   client_ok many_repos_call = Fulfilled (OctokitResponse (VArr two_items) 200)) ∧
  Netlify.app env_full client_ok t0 Netlify.GET_github_repos many_repos =
    (Response 200 (data (OctokitResponse (VArr two_items) 200)), [many_repos_call]).
Proof.
  assert (Hin : many_repos_call
     ∈ (Netlify.app env_full client_ok t0 Netlify.GET_github_repos many_repos).2)
    by (apply list_elem_of_singleton; by vm_compute).
  split; [split_and!; first [reflexivity | exact Hin]|].
  exact (older_success_is_raw_payload env_full client_ok t0 client_ok
           Netlify.GET_github_repos many_repos many_repos_call
           (OctokitResponse (VArr two_items) 200) eq_refl eq_refl eq_refl Hin eq_refl).
Defined.

Lemma older_per_page_is_not_capped_witness :
  (Netlify.paginated Netlify.GET_github_repos = true ∧
   many_repos_call
     ∈ (Netlify.app env_full client_ok t0 Netlify.GET_github_repos many_repos).2) ∧
  ∃ sent,
    args many_repos_call = [VObj sent] ∧
    sent !! "per_page" =
      Some (if truthy (q many_repos "per_page") then q many_repos "per_page"
            else VNum (Int 30)).
Proof.
  assert (Hin : many_repos_call
     ∈ (Netlify.app env_full client_ok t0 Netlify.GET_github_repos many_repos).2)
    by (apply list_elem_of_singleton; by vm_compute).
  split; [split; [reflexivity | exact Hin]|].
  exact (older_per_page_is_not_capped env_full client_ok t0 Netlify.GET_github_repos
           many_repos many_repos_call eq_refl Hin).
Defined.

(** The same request through the two versions: 500 asked for, 100 sent by
    [src/server.js], "500" sent by the older function. *)
Example per_page_500_in_both_versions :
  (app env_full t0 proc0 client_ok GET_github_repos many_repos).2 =
    [Call repos_listForAuthenticatedUser [VObj (obj [
       ("sort", VStr "updated");
       ("direction", VStr "desc");
       ("per_page", VNum (Int 100));
       ("page", VNum (Int 1));
       ("visibility", VStr "all")])]] ∧
  (Netlify.app env_full client_ok t0 Netlify.GET_github_repos many_repos).2 =
    [many_repos_call].
Proof. split; by vm_compute. Qed.

Lemma older_issue_creation_drops_fields_witness :
  (Netlify.octokit env_full client_ok = Some client_ok ∧
   Netlify.authenticate env_full full_issue = Next full_issue ∧
   body full_issue = VObj full_issue_fields ∧
   truthy (get full_issue_fields "title") = true) ∧
  ∃ sent,
    (Netlify.app env_full client_ok t0 Netlify.POST_github_repo_issues full_issue).2
      = [Call issues_create [VObj sent]] ∧
    sent !! "title" = Some (get full_issue_fields "title") ∧
    sent !! "body" = Some (get full_issue_fields "body") ∧
    sent !! "labels" = Some (get full_issue_fields "labels") ∧
    sent !! "assignees" = None ∧
    sent !! "milestone" = None.
Proof.
  split; [split_and!; reflexivity|].
  exact (older_issue_creation_drops_fields env_full client_ok t0 client_ok full_issue
           full_issue_fields eq_refl eq_refl eq_refl eq_refl).
Defined.
